(** * The fleet (RHOBS) webhook receiver of ocm-agent

    A shallow embedding of [pkg/handlers/webhookrhobsreceiver.go]: the HTTP
    entry point [ServeHTTP], the batch loop [processAMReceiver], the per-alert
    orchestrator [processAlert] and its two helpers
    [createManagedFleetNotificationRecord] and [addNotificationRecordByName].

    The Kubernetes client, the OCM client, the clock, the JSON codec and the
    alert filter are collaborators of the handler (Go interfaces or other
    packages); they are type classes and section variables here.  Every call
    to a collaborator is written to a trace together with its result, the way
    the mock controller of the test-suite observes the handler. *)

From Stdlib Require Import ZArith Lia.
From stdpp Require Import base strings list gmap.

Local Open Scope string_scope.

(** ** Go errors *)

Module errors.

(** The reasons of [k8s.io/apimachinery/pkg/apis/meta/v1.StatusReason] the
    handler can tell apart, plus a default. *)
Inductive StatusReason :=
| StatusReasonNotFound
| StatusReasonAlreadyExists
| StatusReasonConflict
| StatusReasonInternalError
| StatusReasonUnknown.

(** A Go [error] value that is not nil: an API status error, or a plain
    error built by [fmt.Errorf] (or by another package). *)
Inductive error :=
| StatusError (reason : StatusReason) (message : string)
| Errorf (message : string).

Definition IsNotFound (err : error) : bool :=
  match err with
  | StatusError StatusReasonNotFound _ => true
  | _ => false
  end.

Definition IsConflict (err : error) : bool :=
  match err with
  | StatusError StatusReasonConflict _ => true
  | _ => false
  end.

End errors.
Export errors.

(** ** Alertmanager payload ([github.com/prometheus/alertmanager/template]) *)

Module template.

Record Alert := {
  Status : string;
  Labels : gmap string string;
  Annotations : gmap string string;
  StartsAt : Z;
  EndsAt : Z
}.

(** [AMReceiverData] is [template.Data]; the handler reads [Alerts] only. *)
Record Data := {
  Receiver : string;
  DataStatus : string;
  Alerts : list Alert
}.

(** [Alerts.Firing()]: the alerts whose status is the string [firing], in
    order. *)
Definition Firing (alerts : list Alert) : list Alert :=
  filter (fun a => Status a = "firing") alerts.

(** [Alerts.Resolved()]; the handler never calls it. *)
Definition Resolved (alerts : list Alert) : list Alert :=
  filter (fun a => Status a = "resolved") alerts.

(** Indexing a Go map: a missing key reads as the zero value. *)
Definition label (a : Alert) (key : string) : string :=
  default EmptyString (Labels a !! key).

End template.
Export template.

(** ** The notification API ([ocm-agent-operator/api/v1alpha1]) *)

Module oav1alpha1.

(** Modelled from the spec: the API package is not among the sources; the
    handler's use of it fixes the names and the signatures.  The fields of
    [FleetNotification] are the ones [processAlert] reads. *)
Record FleetNotification := {
  fn_Name : string;
  fn_Summary : string;
  fn_NotificationMessage : string;
  fn_Severity : string;
  fn_LogType : string;
  fn_References : list string;
  fn_ResendWait : Z
}.

Record ManagedFleetNotification := {
  mfn_Name : string;
  mfn_FleetNotification : FleetNotification
}.

(** Modelled from the spec: one item per hosted cluster.  It keeps the time
    of the last notification sent (the spec's NotificationSent condition,
    absent until a first send) and the sent counter. *)
Record NotificationRecordItem := {
  HostedClusterID : string;
  ServiceLogSentCount : Z;
  LastTransitionTime : option Z
}.

(** The three fields are the ones [addNotificationRecordByName] fills.  A
    nil slice and an empty one are both the empty list. *)
Record NotificationRecordByName := {
  NotificationName : string;
  ResendWait : Z;
  NotificationRecordItems : list NotificationRecordItem
}.

Record ManagedFleetNotificationRecordStatus := {
  ManagementCluster : string;
  Status_RecordByName : list NotificationRecordByName
}.

Record ManagedFleetNotificationRecord := {
  ObjectMeta_Name : string;
  ObjectMeta_Namespace : string;
  mfnr_Status : ManagedFleetNotificationRecordStatus
}.

Definition with_status (m : ManagedFleetNotificationRecord)
    (st : ManagedFleetNotificationRecordStatus) : ManagedFleetNotificationRecord :=
  {| ObjectMeta_Name := ObjectMeta_Name m;
     ObjectMeta_Namespace := ObjectMeta_Namespace m;
     mfnr_Status := st |}.

Definition with_records (m : ManagedFleetNotificationRecord)
    (l : list NotificationRecordByName) : ManagedFleetNotificationRecord :=
  with_status m {| ManagementCluster := ManagementCluster (mfnr_Status m);
                   Status_RecordByName := l |}.

Definition with_items (r : NotificationRecordByName)
    (l : list NotificationRecordItem) : NotificationRecordByName :=
  {| NotificationName := NotificationName r;
     ResendWait := ResendWait r;
     NotificationRecordItems := l |}.

(** Index of the first element a predicate accepts. *)
Fixpoint find_index {A} (p : A -> bool) (l : list A) : option nat :=
  match l with
  | [] => None
  | x :: l' => if p x then Some 0%nat else S <$> find_index p l'
  end.

Definition named (name : string) (r : NotificationRecordByName) : bool :=
  bool_decide (NotificationName r = name).

Definition hosted (hcID : string) (i : NotificationRecordItem) : bool :=
  bool_decide (HostedClusterID i = hcID).

(** Modelled from the spec: [GetNotificationRecordByName] locates the entry
    of a template in the record of a management cluster.  The result is a
    pointer into the status slice, here the index of the element. *)
Definition GetNotificationRecordByName (m : ManagedFleetNotificationRecord)
    (mcID name : string) : error + nat :=
  if bool_decide (ManagementCluster (mfnr_Status m) = mcID) then
    match find_index (named name) (Status_RecordByName (mfnr_Status m)) with
    | Some i => inr i
    | None => inl (Errorf ("notification record not found: " ++ name))
    end
  else inl (Errorf ("management cluster not found: " ++ mcID)).

(** Modelled from the spec: [GetNotificationRecordItem] locates the item of
    a hosted cluster below the entry of a template. *)
Definition GetNotificationRecordItem (m : ManagedFleetNotificationRecord)
    (mcID name hcID : string) : error + NotificationRecordItem :=
  match GetNotificationRecordByName m mcID name with
  | inl err => inl err
  | inr i =>
      match Status_RecordByName (mfnr_Status m) !! i with
      | None => inl (Errorf ("notification record not found: " ++ name))
      | Some r =>
          match find_index (hosted hcID) (NotificationRecordItems r) with
          | None => inl (Errorf ("notification record item not found: " ++ hcID))
          | Some j =>
              match NotificationRecordItems r !! j with
              | Some it => inr it
              | None => inl (Errorf ("notification record item not found: " ++ hcID))
              end
          end
      end
  end.

Definition new_item (hcID : string) : NotificationRecordItem :=
  {| HostedClusterID := hcID; ServiceLogSentCount := 0; LastTransitionTime := None |}.

(** Modelled from the spec: what [AddNotificationRecordItem] does to the
    entry its second argument points to: a fresh item, never sent, is
    appended.  The receiver is touched through that pointer only. *)
Definition add_item (hcID : string) (r : NotificationRecordByName)
    : NotificationRecordByName :=
  with_items r (NotificationRecordItems r ++ [new_item hcID]).

(** [time.Hour] in nanoseconds; [ResendWait] counts hours. *)
Definition Hour : Z := 3600 * 1000000000.

Definition resendWaitDuration (rswait : Z) : Z := (rswait * Hour)%Z.

(** Modelled from the spec (4.3, firing case): a notification can be sent
    when none was sent so far, or when the last one is at least the resend
    wait old; inside the window it cannot.  A missing entry or item is an
    error. *)
Definition CanBeSent (m : ManagedFleetNotificationRecord)
    (mcID name hcID : string) (now : Z) : error + bool :=
  match GetNotificationRecordByName m mcID name with
  | inl err => inl err
  | inr i =>
      match Status_RecordByName (mfnr_Status m) !! i with
      | None => inl (Errorf ("notification record not found: " ++ name))
      | Some r =>
          match GetNotificationRecordItem m mcID name hcID with
          | inl err => inl err
          | inr it =>
              match LastTransitionTime it with
              | None => inr true
              | Some last =>
                  inr (bool_decide (resendWaitDuration (ResendWait r) <= now - last)%Z)
              end
          end
      end
  end.

Definition sent_item (now : Z) (it : NotificationRecordItem) : NotificationRecordItem :=
  {| HostedClusterID := HostedClusterID it;
     ServiceLogSentCount := (ServiceLogSentCount it + 1)%Z;
     LastTransitionTime := Some now |}.

(** Modelled from the spec (4.4, step 6): [UpdateNotificationRecordItem]
    stamps the item of the hosted cluster with the current time and
    increments its counter, in the record itself.  It returns the item and
    an error; both are nil-able in Go. *)
Definition UpdateNotificationRecordItem (m : ManagedFleetNotificationRecord)
    (name hcID : string) (now : Z)
    : ManagedFleetNotificationRecord * option NotificationRecordItem * option error :=
  let records := Status_RecordByName (mfnr_Status m) in
  match find_index (named name) records with
  | None => (m, None, Some (Errorf ("notification record not found: " ++ name)))
  | Some i =>
      match records !! i with
      | None => (m, None, Some (Errorf ("notification record not found: " ++ name)))
      | Some r =>
          match find_index (hosted hcID) (NotificationRecordItems r) with
          | None => (m, None, Some (Errorf ("notification record item not found: " ++ hcID)))
          | Some j =>
              match NotificationRecordItems r !! j with
              | None => (m, None, Some (Errorf ("notification record item not found: " ++ hcID)))
              | Some it =>
                  let it' := sent_item now it in
                  let r' := with_items r (<[j := it']> (NotificationRecordItems r)) in
                  (with_records m (<[i := r']> records), Some it', None)
              end
          end
      end
  end.

(** The item of a hosted cluster below a template, whatever the management
    cluster, found the way the lookups above find it. *)
Definition item_of (m : ManagedFleetNotificationRecord) (name hcID : string)
    : option NotificationRecordItem :=
  match find_index (named name) (Status_RecordByName (mfnr_Status m)) with
  | None => None
  | Some i =>
      match Status_RecordByName (mfnr_Status m) !! i with
      | None => None
      | Some r =>
          match find_index (hosted hcID) (NotificationRecordItems r) with
          | None => None
          | Some j => NotificationRecordItems r !! j
          end
      end
  end.

(** The counter of a hosted cluster below a template, 0 when there is no
    such item. *)
Definition sentCount (m : ManagedFleetNotificationRecord) (name hcID : string) : Z :=
  default 0%Z (ServiceLogSentCount <$> item_of m name hcID).

(** The time of the last notification, if one was sent. *)
Definition lastSent (m : ManagedFleetNotificationRecord) (name hcID : string) : option Z :=
  item_of m name hcID ≫= LastTransitionTime.

End oav1alpha1.
Export oav1alpha1.

(** ** Collaborators and the trace of their calls *)

Inductive Level := Info | Error.

Inductive MetricName := MetricRequestFailure | MetricResponseFailure.

(** One entry per call that leaves the handler, with the result the
    collaborator gave back. *)
Inductive Event :=
| EvLog (level : Level) (message : string)
| EvSetRequestMetricFailure (path : string)
| EvSetResponseMetricFailure (service : string)
| EvResetMetric (metric : MetricName)
| EvCountServiceLogSent (name state : string)
| EvGetTemplate (namespace name : string) (res : error + ManagedFleetNotification)
| EvGetRecord (namespace name : string) (res : error + ManagedFleetNotificationRecord)
| EvCreate (obj : ManagedFleetNotificationRecord) (res : option error)
| EvStatusUpdate (obj : ManagedFleetNotificationRecord) (res : option error)
| EvSendServiceLog (summary active resolved target severity logType : string)
    (references : list string) (firing : bool) (res : option error).

(** [client.Client] of controller-runtime, at the two object types the
    handler reads and the one it writes.  A call may change the world (a
    scripted mock moves on, time passes); of the object handed to [Create]
    and [Status().Update] the client rewrites metadata only, which the model
    does not carry. *)
Class Client (W : Type) := {
  client_GetTemplate : string -> string -> W -> (error + ManagedFleetNotification) * W;
  client_GetRecord : string -> string -> W -> (error + ManagedFleetNotificationRecord) * W;
  client_Create : ManagedFleetNotificationRecord -> W -> option error * W;
  client_StatusUpdate : ManagedFleetNotificationRecord -> W -> option error * W
}.

(** The [OCMClient] interface of the handlers package. *)
Class OCMClient (W : Type) := {
  ocm_SendServiceLog :
    string -> string -> string -> string -> string -> string -> list string -> bool ->
    W -> option error * W
}.

(** [time.Now()], in nanoseconds. *)
Class Clock (W : Type) := {
  time_Now : W -> Z
}.

(** Computations of the handler: a state monad over the world that also
    writes the trace. *)
Definition M (W A : Type) : Type := W -> A * W * list Event.

#[global] Instance M_ret {W} : MRet (M W) := fun A a w => (a, w, []).

#[global] Instance M_bind {W} : MBind (M W) := fun A B f m w =>
  let '(a, w1, t1) := m w in
  let '(b, w2, t2) := f a w1 in
  (b, w2, (t1 ++ t2)%list).

Definition emit {W} (e : Event) : M W unit := fun w => (tt, w, [e]).

Definition log {W} (level : Level) (message : string) : M W unit :=
  emit (EvLog level message).

Definition result {W A} (m : M W A) (w : W) : A := (m w).1.1.
Definition world {W A} (m : M W A) (w : W) : W := (m w).1.2.
Definition trace {W A} (m : M W A) (w : W) : list Event := (m w).2.

(** ** Go pointers to a [NotificationRecordByName] *)

(** [processAlert] holds a pointer [nfr] that is either an element of the
    status slice of the record or the local variable [nfrbn] of
    [addNotificationRecordByName], which outlives the call.  The memory the
    handler works on is the record object and that variable. *)
Inductive RecordByNamePtr := InStatus (i : nat) | Escaped.

Record Heap := {
  mfnr : ManagedFleetNotificationRecord;
  nfrbn : NotificationRecordByName
}.

Definition zero_nfrbn : NotificationRecordByName :=
  {| NotificationName := EmptyString; ResendWait := 0; NotificationRecordItems := [] |}.

(** [mfnr.AddNotificationRecordItem(hcID, nfr)]: the append of [add_item]
    happens where [nfr] points; the error is always nil. *)
Definition AddNotificationRecordItem (hcID : string) (nfr : RecordByNamePtr) (h : Heap)
    : Heap * option error :=
  match nfr with
  | InStatus i =>
      ({| mfnr := with_records (mfnr h)
                    (alter (add_item hcID) i (Status_RecordByName (mfnr_Status (mfnr h))));
          nfrbn := nfrbn h |}, None)
  | Escaped =>
      ({| mfnr := mfnr h; nfrbn := add_item hcID (nfrbn h) |}, None)
  end.

(** [append] stores the value of [nfrbn] in the slice; the item is then added
    through [&nfrbn], the address of the local variable. *)
Definition addNotificationRecordByName (name : string) (rswait : Z) (hcID : string)
    (h : Heap) : Heap * RecordByNamePtr * option error :=
  let nfrbn0 := {| NotificationName := name;
                   ResendWait := rswait;
                   NotificationRecordItems := [] |} in
  let h1 := {| mfnr := with_records (mfnr h)
                         (Status_RecordByName (mfnr_Status (mfnr h)) ++ [nfrbn0]);
               nfrbn := nfrbn0 |} in
  let '(h2, err) := AddNotificationRecordItem hcID Escaped h1 in
  (h2, Escaped, err).

(** ** The handler *)

Definition OCMAgentNamespaceName : string := "openshift-ocm-agent-operator".

Definition StatusOK : Z := 200.
Definition StatusBadRequest : Z := 400.
Definition StatusMethodNotAllowed : Z := 405.
Definition StatusInternalServerError : Z := 500.
Definition MethodPost : string := "POST".

(** [AMReceiverResponse] as the handler builds it. *)
Record AMReceiverResponse := {
  resp_Error : option error;
  resp_Status : string;
  resp_Code : Z
}.

Record Request := {
  Method : string;
  Body : string
}.

(** An [http.ResponseWriter]: the header map, and what went on the wire (the
    status line with the headers of that moment, then the body). *)
Record ResponseWriter := {
  rw_Header : gmap string string;
  rw_Code : option Z;
  rw_SentHeader : gmap string string;
  rw_Body : string
}.

Definition newResponseWriter : ResponseWriter :=
  {| rw_Header := ∅; rw_Code := None; rw_SentHeader := ∅; rw_Body := EmptyString |}.

Definition Header_Set (key value : string) (w : ResponseWriter) : ResponseWriter :=
  {| rw_Header := <[key := value]> (rw_Header w);
     rw_Code := rw_Code w; rw_SentHeader := rw_SentHeader w; rw_Body := rw_Body w |}.

Definition Header_Del (key : string) (w : ResponseWriter) : ResponseWriter :=
  {| rw_Header := delete key (rw_Header w);
     rw_Code := rw_Code w; rw_SentHeader := rw_SentHeader w; rw_Body := rw_Body w |}.

(** A second [WriteHeader] is ignored. *)
Definition WriteHeader (code : Z) (w : ResponseWriter) : ResponseWriter :=
  match rw_Code w with
  | Some _ => w
  | None => {| rw_Header := rw_Header w; rw_Code := Some code;
               rw_SentHeader := rw_Header w; rw_Body := rw_Body w |}
  end.

Definition Write (data : string) (w : ResponseWriter) : ResponseWriter :=
  let w1 := WriteHeader StatusOK w in
  {| rw_Header := rw_Header w1; rw_Code := rw_Code w1;
     rw_SentHeader := rw_SentHeader w1; rw_Body := rw_Body w1 ++ data |}.

Definition newline : string := String (Ascii.ascii_of_nat 10) EmptyString.

(** [http.Error] of net/http. *)
Definition http_Error (w : ResponseWriter) (message : string) (code : Z) : ResponseWriter :=
  let w1 := Header_Del "Content-Length" w in
  let w2 := Header_Set "Content-Type" "text/plain; charset=utf-8" w1 in
  let w3 := Header_Set "X-Content-Type-Options" "nosniff" w2 in
  Write (message ++ newline) (WriteHeader code w3).

Inductive Outcome (A : Type) := Returned (a : A) | Panicked.
Arguments Returned {A} a.
Arguments Panicked {A}.

Section Handler.

Context {W : Type} `{!Client W, !OCMClient W, !Clock W}.

(** Declared elsewhere in the repository and taken as given: the label
    names, the path of the receiver, the alert filter, and the JSON codec
    at the two types the handler uses it. *)
Variables AMLabelTemplateName AMLabelAlertMCID AMLabelAlertHCID : string.
Variable WebhookReceiverPath : string.
Variable isValidAlert : Alert -> bool -> bool.
Variable json_Decode : string -> error + Data.
Variable json_Encode : AMReceiverResponse -> error + string.

Definition Get_template (namespace name : string) : M W (error + ManagedFleetNotification) :=
  fun w => let '(r, w') := client_GetTemplate namespace name w in
           (r, w', [EvGetTemplate namespace name r]).

Definition Get_record (namespace name : string)
    : M W (error + ManagedFleetNotificationRecord) :=
  fun w => let '(r, w') := client_GetRecord namespace name w in
           (r, w', [EvGetRecord namespace name r]).

Definition Create (obj : ManagedFleetNotificationRecord) : M W (option error) :=
  fun w => let '(r, w') := client_Create obj w in (r, w', [EvCreate obj r]).

Definition Status_Update (obj : ManagedFleetNotificationRecord) : M W (option error) :=
  fun w => let '(r, w') := client_StatusUpdate obj w in (r, w', [EvStatusUpdate obj r]).

Definition SendServiceLog (summary active resolved target severity logType : string)
    (references : list string) (firing : bool) : M W (option error) :=
  fun w =>
    let '(r, w') :=
      ocm_SendServiceLog summary active resolved target severity logType references firing w in
    (r, w', [EvSendServiceLog summary active resolved target severity logType
               references firing r]).

Definition Now : M W Z := fun w => (time_Now w, w, []).

Definition createManagedFleetNotificationRecord (mcID : string)
    : M W (error + ManagedFleetNotificationRecord) :=
  let mfnr := {| ObjectMeta_Name := mcID;
                 ObjectMeta_Namespace := OCMAgentNamespaceName;
                 mfnr_Status := {| ManagementCluster := mcID; Status_RecordByName := [] |} |} in
  err ← Create mfnr;
  match err with
  | Some e => mret (inl e)
  | None => mret (inr mfnr)
  end.

(** Lines 113-130: fetch the record of the management cluster, or create
    it. *)
Definition fetchOrCreate (mcID : string) : M W (error + ManagedFleetNotificationRecord) :=
  got ← Get_record OCMAgentNamespaceName mcID;
  match got with
  | inr m => mret (inr m)
  | inl err =>
      if negb (IsNotFound err) then
        log Error "unable to fetch managedFleetNotificationRecord";;
        mret (inl (Errorf ("unable to fetch managedFleetNotificationRecord for " ++ mcID)))
      else
        created ← createManagedFleetNotificationRecord mcID;
        match created with
        | inl err => log Error "unable to create managedFleetNotificationRecord";;
                     mret (inl err)
        | inr m => mret (inr m)
        end
  end.

(** Lines 132-146: a record without status gets an initial one, written at
    once. *)
Definition ensureStatus (mcID : string) (m : ManagedFleetNotificationRecord)
    : M W (error + ManagedFleetNotificationRecord) :=
  if bool_decide (ManagementCluster (mfnr_Status m) = EmptyString) then
    let m' := with_status m {| ManagementCluster := mcID; Status_RecordByName := [] |} in
    err ← Status_Update m';
    match err with
    | Some e => log Error "unable to set initial managedFleetNotificationRecord status";;
                mret (inl e)
    | None => mret (inr m')
    end
  else mret (inr m).

(** Lines 148-166: locate the entry of the template and the item of the
    hosted cluster, adding what is missing. *)
Definition locate (fn : FleetNotification) (mcID hcID : string)
    (m : ManagedFleetNotificationRecord) : Heap * option error :=
  let h0 := {| mfnr := m; nfrbn := zero_nfrbn |} in
  let '(h1, nfr, err) :=
    match GetNotificationRecordByName m mcID (fn_Name fn) with
    | inr i => (h0, InStatus i, None)
    | inl _ => addNotificationRecordByName (fn_Name fn) (fn_ResendWait fn) hcID h0
    end in
  match err with
  | Some e => (h1, Some e)
  | None =>
      match GetNotificationRecordItem (mfnr h1) mcID (fn_Name fn) hcID with
      | inr _ => (h1, None)
      | inl _ => AddNotificationRecordItem hcID nfr h1
      end
  end.

(** Lines 168-208: the resend check, the send, the update of the item and
    the write of the status.  The result carries the record object as it
    is when the function returns. *)
Definition sendAndPersist (mfn : ManagedFleetNotification) (mcID hcID : string)
    (m : ManagedFleetNotificationRecord)
    : M W (option error * ManagedFleetNotificationRecord) :=
  let fn := mfn_FleetNotification mfn in
  now ← Now;
  match CanBeSent m mcID (fn_Name fn) hcID now with
  | inl err =>
      log Error "unable to fetch NotificationrecordByName or NotificationRecordItem";;
      mret (Some err, m)
  | inr false =>
      log Info "not sending a notification as one was already sent recently";;
      mret (None, m)
  | inr true =>
      log Info "will send servicelog for notification";;
      err ← SendServiceLog (fn_Summary fn) (fn_NotificationMessage fn) EmptyString hcID
              (fn_Severity fn) (fn_LogType fn) (fn_References fn) true;
      match err with
      | Some e =>
          log Error "unable to send a notification";;
          emit (EvSetResponseMetricFailure "service_logs");;
          mret (Some e, m)
      | None =>
          emit (EvResetMetric MetricResponseFailure);;
          emit (EvCountServiceLogSent (fn_Name fn) "firing");;
          now' ← Now;
          let '(m', ri, err) := UpdateNotificationRecordItem m (fn_Name fn) hcID now' in
          if bool_decide (err ≠ None) || bool_decide (ri = None) then
            log Error "unable to update notification status in CR";;
            mret (err, m')
          else
            err ← Status_Update m';
            match err with
            | Some e =>
                log Error "unable to update notification status on cluster";;
                mret (Some e, m')
            | None => mret (None, m')
            end
      end
  end.

(** [processAlert] with the memory made visible: the error it returns and
    the record object [mfnr] points to at that moment, if there is one. *)
Definition processAlert_mem (alert : Alert) (mfn : ManagedFleetNotification)
    : M W (option error * option ManagedFleetNotificationRecord) :=
  let fn := mfn_FleetNotification mfn in
  let mcID := label alert AMLabelAlertMCID in
  let hcID := label alert AMLabelAlertHCID in
  fetched ← fetchOrCreate mcID;
  match fetched with
  | inl err => mret (Some err, None)
  | inr m0 =>
      initialised ← ensureStatus mcID m0;
      match initialised with
      | inl err => mret (Some err, Some (with_status m0
                          {| ManagementCluster := mcID; Status_RecordByName := [] |}))
      | inr m1 =>
          match locate fn mcID hcID m1 with
          | (h, Some err) => mret (Some err, Some (mfnr h))
          | (h, None) =>
              '(err, m2) ← sendAndPersist mfn mcID hcID (mfnr h);
              mret (err, Some m2)
          end
      end
  end.

Definition processAlert (alert : Alert) (mfn : ManagedFleetNotification)
    : M W (option error) :=
  r ← processAlert_mem alert mfn;
  mret r.1.

(** The body of the loop of [processAMReceiver] for one firing alert: the
    response when the function returns from inside the loop, nothing when
    the loop goes on. *)
Definition handleAlert (alert : Alert) : M W (option AMReceiverResponse) :=
  let templateName := label alert AMLabelTemplateName in
  got ← Get_template OCMAgentNamespaceName templateName;
  match got with
  | inl err =>
      log Error "unable to locate corresponding notification template";;
      mret (Some {| resp_Error := Some err;
                    resp_Status := "unable to find ManagedFleetNotification "
                                   ++ templateName;
                    resp_Code := StatusInternalServerError |})
  | inr mfn =>
      if negb (isValidAlert alert true) then
        log Info "alert does not meet valid criteria";;
        mret None
      else
        err ← processAlert alert mfn;
        match err with
        | Some _ => log Error "a firing alert could not be successfully processed"
        | None => mret tt
        end;;
        mret None
  end.

(** The loop itself, and the response that follows it. *)
Fixpoint handleFiring (alerts : list Alert) : M W AMReceiverResponse :=
  match alerts with
  | [] => mret {| resp_Error := None; resp_Status := "ok"; resp_Code := StatusOK |}
  | alert :: rest =>
      returned ← handleAlert alert;
      match returned with
      | Some response => mret response
      | None => handleFiring rest
      end
  end.

Definition processAMReceiver (d : Data) : M W AMReceiverResponse :=
  log Info "Process alert data";;
  handleFiring (Firing (Alerts d)).

(** [ServeHTTP]; a nil request passes the method test and is dereferenced
    by [r.Body]. *)
Definition ServeHTTP (w : ResponseWriter) (r : option Request)
    : M W (Outcome ResponseWriter) :=
  match r with
  | None => mret Panicked
  | Some r =>
      if bool_decide (Method r ≠ MethodPost) then
        mret (Returned (http_Error w "Method Not Allowed" StatusMethodNotAllowed))
      else
        match json_Decode (Body r) with
        | inl err =>
            log Error "Failed to process request body";;
            let w1 := http_Error w "Bad request body" StatusBadRequest in
            emit (EvSetRequestMetricFailure WebhookReceiverPath);;
            mret (Returned w1)
        | inr alertData =>
            response ← processAMReceiver alertData;
            let w1 := Header_Set "Content-Type" "application/json" w in
            let w2 := WriteHeader (resp_Code response) w1 in
            match json_Encode response with
            | inl err =>
                log Error "Failed to write to response";;
                let w3 := http_Error w2 "Failed to write to response"
                            StatusInternalServerError in
                emit (EvSetRequestMetricFailure WebhookReceiverPath);;
                mret (Returned w3)
            | inr text =>
                let w3 := Write (text ++ newline) w2 in
                emit (EvResetMetric MetricRequestFailure);;
                mret (Returned w3)
            end
        end
  end.

End Handler.

Arguments processAlert_mem {W _ _ _} AMLabelAlertMCID AMLabelAlertHCID alert mfn.
Arguments processAlert {W _ _ _} AMLabelAlertMCID AMLabelAlertHCID alert mfn.
Arguments handleAlert {W _ _ _} AMLabelTemplateName AMLabelAlertMCID AMLabelAlertHCID
  isValidAlert alert.
Arguments handleFiring {W _ _ _} AMLabelTemplateName AMLabelAlertMCID AMLabelAlertHCID
  isValidAlert alerts.
Arguments processAMReceiver {W _ _ _} AMLabelTemplateName AMLabelAlertMCID AMLabelAlertHCID
  isValidAlert d.
Arguments ServeHTTP {W _ _ _} AMLabelTemplateName AMLabelAlertMCID AMLabelAlertHCID
  WebhookReceiverPath isValidAlert json_Decode json_Encode w r.

(** ** Reading a trace *)

Definition is_send (e : Event) : bool :=
  match e with EvSendServiceLog _ _ _ _ _ _ _ _ _ => true | _ => false end.

(** A send the OCM client answered with nil. *)
Definition is_sent (e : Event) : bool :=
  match e with EvSendServiceLog _ _ _ _ _ _ _ _ None => true | _ => false end.

Definition is_write (e : Event) : bool :=
  match e with EvCreate _ _ | EvStatusUpdate _ _ => true | _ => false end.

Definition is_create (e : Event) : bool :=
  match e with EvCreate _ _ => true | _ => false end.

Definition is_status_update (e : Event) : bool :=
  match e with EvStatusUpdate _ _ => true | _ => false end.

Definition is_get_record (e : Event) : bool :=
  match e with EvGetRecord _ _ _ => true | _ => false end.

Definition is_count (e : Event) : bool :=
  match e with EvCountServiceLogSent _ _ => true | _ => false end.

(** A call to a collaborator, as opposed to a log line or a metric. *)
Definition is_call (e : Event) : bool :=
  match e with
  | EvGetTemplate _ _ _ | EvGetRecord _ _ _ | EvCreate _ _ | EvStatusUpdate _ _
  | EvSendServiceLog _ _ _ _ _ _ _ _ _ => true
  | _ => false
  end.

Definition count_of (p : Event -> bool) (tr : list Event) : nat :=
  length (List.filter p tr).

(** The template names looked up, in order. *)
Definition lookups (tr : list Event) : list string :=
  omap (fun e => match e with EvGetTemplate _ name _ => Some name | _ => None end) tr.

(** ** Vocabulary of the statements *)

(** The two responses [processAMReceiver] can give. *)
Definition ok_response : AMReceiverResponse :=
  {| resp_Error := None; resp_Status := "ok"; resp_Code := StatusOK |}.

Definition not_found_response (templateName : string) (err : error) : AMReceiverResponse :=
  {| resp_Error := Some err;
     resp_Status := "unable to find ManagedFleetNotification " ++ templateName;
     resp_Code := StatusInternalServerError |}.

(** A send as this handler issues it: for a firing alert, without a text for
    the resolved state. *)
Definition firing_send (e : Event) : Prop :=
  match e with
  | EvSendServiceLog _ _ resolved _ _ _ _ firing _ => resolved = EmptyString /\ firing = true
  | _ => True
  end.

(** The content type that went on the wire. *)
Definition ContentType (rw : ResponseWriter) : option string :=
  rw_SentHeader rw !! "Content-Type".

(** A record none of whose entries has an item. *)
Definition blank (obj : ManagedFleetNotificationRecord) : Prop :=
  forall n hc, item_of obj n hc = None.

(** An execution that does not start from a record with status: it ends in
    an error, nothing is sent, and whatever is written has no item. *)
Definition fresh_run (r : option error * option ManagedFleetNotificationRecord)
    (tr : list Event) : Prop :=
  r.1 <> None
  /\ count_of is_send tr = 0%nat
  /\ count_of is_count tr = 0%nat
  /\ (forall obj res, In (EvCreate obj res) tr \/ In (EvStatusUpdate obj res) tr -> blank obj)
  /\ (forall m', r.2 = Some m' -> blank m').



(** The resend wait of the entry of a template, if the record has one. *)
Definition entry_wait (m : ManagedFleetNotificationRecord) (name : string) : option Z :=
  match find_index (named name) (Status_RecordByName (mfnr_Status m)) with
  | None => None
  | Some i => ResendWait <$> Status_RecordByName (mfnr_Status m) !! i
  end.

(** A record for which a notification goes out at [now]: it has its status,
    for this management cluster, and an entry for the template; and the
    hosted cluster was never notified, or long enough ago. *)
Definition sendable (m : ManagedFleetNotificationRecord) (mcID name hcID : string)
    (now : Z) : bool :=
  bool_decide (ManagementCluster (mfnr_Status m) = mcID)
  && bool_decide (mcID <> EmptyString)
  && match entry_wait m name with
     | None => false
     | Some wait =>
         match lastSent m name hcID with
         | None => true
         | Some last => bool_decide (resendWaitDuration wait <= now - last)%Z
         end
     end.

(** The resend test says yes. *)
Definition can_send (m : ManagedFleetNotificationRecord) (mcID name hcID : string)
    (now : Z) : bool :=
  match CanBeSent m mcID name hcID now with
  | inr true => true
  | _ => false
  end.

(** More ways to read an event. *)
Definition is_send_failed (e : Event) : bool :=
  match e with EvSendServiceLog _ _ _ _ _ _ _ _ (Some _) => true | _ => false end.

Definition is_response_failure (e : Event) : bool :=
  match e with EvSetResponseMetricFailure _ => true | _ => false end.

Definition is_response_reset (e : Event) : bool :=
  match e with EvResetMetric MetricResponseFailure => true | _ => false end.

Definition lookup_failed (e : Event) : bool :=
  match e with EvGetTemplate _ _ (inl _) => true | _ => false end.

(** The writes of an execution that does not start from a record with
    status: at most one write of the status, and no entry in what is
    written. *)
Definition fresh_writes (tr : list Event) : Prop :=
  (count_of is_status_update tr <= 1)%nat
  /\ forall obj res,
       In (EvCreate obj res) tr \/ In (EvStatusUpdate obj res) tr ->
       Status_RecordByName (mfnr_Status obj) = [].

(** ** Proof steps that recur *)

Ltac unfold_M :=
  unfold Get_template, Get_record, Create, Status_Update, SendServiceLog, Now, log, emit,
    mbind, M_bind, mret, M_ret in *.

(** Membership in a trace that is written out. *)
Ltac in_trace H :=
  simpl in H; repeat (destruct H as [H|H]; simplify_eq); try done.

(** A closed goal, by evaluation. *)
Ltac evaluate := vm_compute; first [reflexivity | discriminate | tauto | done].

Ltac fresh_run_tac :=
  repeat split; try done;
  try (intros ? ? [Hin|Hin]; in_trace Hin; by intros ??);
  try (intros ? [= <-]; try done; by intros ??).

Ltac fresh_writes_tac :=
  split; [unfold count_of; simpl; lia|];
  intros ? ? [Hin|Hin]; in_trace Hin.

(** ** A store in memory, for examples

    The client behaves like the fake client of controller-runtime: objects
    are kept by name; [fail_update] and [fail_send] script a failure of the
    status write and of the OCM call. *)

Module fake.

Record World := {
  templates : list ManagedFleetNotification;
  records : list ManagedFleetNotificationRecord;
  clock : Z;
  fail_send : option error;
  fail_update : option error
}.

Definition not_found (name : string) : error :=
  StatusError StatusReasonNotFound name.

Definition put (obj : ManagedFleetNotificationRecord)
    (l : list ManagedFleetNotificationRecord) : list ManagedFleetNotificationRecord :=
  obj :: List.filter (fun m => negb (bool_decide (ObjectMeta_Name m = ObjectMeta_Name obj))) l.

Definition with_store (w : World) (l : list ManagedFleetNotificationRecord) : World :=
  {| templates := templates w; records := l; clock := clock w;
     fail_send := fail_send w; fail_update := fail_update w |}.

Definition getRecord (name : string) (w : World) : option ManagedFleetNotificationRecord :=
  List.find (fun m => bool_decide (ObjectMeta_Name m = name)) (records w).

#[global] Instance client : Client World := {|
  client_GetTemplate _ name w :=
    match List.find (fun t => bool_decide (mfn_Name t = name)) (templates w) with
    | Some t => (inr t, w)
    | None => (inl (not_found name), w)
    end;
  client_GetRecord _ name w :=
    match getRecord name w with
    | Some m => (inr m, w)
    | None => (inl (not_found name), w)
    end;
  client_Create obj w :=
    match getRecord (ObjectMeta_Name obj) w with
    | Some _ => (Some (StatusError StatusReasonAlreadyExists (ObjectMeta_Name obj)), w)
    | None => (None, with_store w (put obj (records w)))
    end;
  client_StatusUpdate obj w :=
    match fail_update w with
    | Some e => (Some e, w)
    | None =>
        match getRecord (ObjectMeta_Name obj) w with
        | Some _ => (None, with_store w (put obj (records w)))
        | None => (Some (not_found (ObjectMeta_Name obj)), w)
        end
    end
|}.

#[global] Instance ocm : OCMClient World := {|
  ocm_SendServiceLog _ _ _ _ _ _ _ _ w := (fail_send w, w)
|}.

#[global] Instance wall_clock : Clock World := {| time_Now := clock |}.

Definition AMLabelTemplateName : string := "managed_notification_template".
Definition AMLabelAlertMCID : string := "_mc_id".
Definition AMLabelAlertHCID : string := "_id".
Definition WebhookReceiverPath : string := "/alertmanager-receiver".

(** Modelled from the spec (4.2): an alert is actionable when it names an
    alert and a template and asks for a notification. *)
Definition isValidAlert (a : Alert) (fleet : bool) : bool :=
  bool_decide (is_Some (Labels a !! "alertname"))
  && bool_decide (is_Some (Labels a !! AMLabelTemplateName))
  && bool_decide (Labels a !! "send_managed_notification" = Some "true").

Definition alert (status template mcID hcID : string) : Alert :=
  {| Status := status;
     Labels := <["alertname" := "TestAlertName"]>
               (<["send_managed_notification" := "true"]>
               (<[AMLabelTemplateName := template]>
               (<[AMLabelAlertMCID := mcID]>
               (<[AMLabelAlertHCID := hcID]> ∅))));
     Annotations := ∅; StartsAt := 0; EndsAt := 0 |}.

Definition notification : ManagedFleetNotification :=
  {| mfn_Name := "test-notification";
     mfn_FleetNotification :=
       {| fn_Name := "test-notification"; fn_Summary := "summary";
          fn_NotificationMessage := "active"; fn_Severity := "Info";
          fn_LogType := "test-type"; fn_References := []; fn_ResendWait := 1 |} |}.

(** The record of management cluster [mc]: one entry for the test
    notification, one item for hosted cluster [hc], sent [count] times,
    last at [last]. *)
Definition record (count : Z) (last : option Z) : ManagedFleetNotificationRecord :=
  {| ObjectMeta_Name := "mc"; ObjectMeta_Namespace := OCMAgentNamespaceName;
     mfnr_Status :=
       {| ManagementCluster := "mc";
          Status_RecordByName :=
            [ {| NotificationName := "test-notification"; ResendWait := 1;
                 NotificationRecordItems :=
                   [ {| HostedClusterID := "hc"; ServiceLogSentCount := count;
                        LastTransitionTime := last |} ] |} ] |} |}.

Definition firing : Alert := alert "firing" "test-notification" "mc" "hc".
Definition missing : Alert := alert "firing" "missing" "mc" "hc".
Definition resolved : Alert := alert "resolved" "test-notification" "mc" "hc".

Definition world0 (l : list ManagedFleetNotificationRecord) (now : Z) : World :=
  {| templates := [notification]; records := l; clock := now;
     fail_send := None; fail_update := None |}.

Definition a_fake_error : error :=
  StatusError StatusReasonInternalError "a fake error".

Definition conflict : error :=
  StatusError StatusReasonConflict "the object has been modified".

Definition failing_send (w : World) : World :=
  {| templates := templates w; records := records w; clock := clock w;
     fail_send := Some a_fake_error; fail_update := fail_update w |}.

Definition failing_update (e : error) (w : World) : World :=
  {| templates := templates w; records := records w; clock := clock w;
     fail_send := fail_send w; fail_update := Some e |}.

(** The item and the entry of [record 1 (Some 0)]. *)
Definition item : NotificationRecordItem :=
  {| HostedClusterID := "hc"; ServiceLogSentCount := 1; LastTransitionTime := Some 0%Z |}.

Definition entry : NotificationRecordByName :=
  {| NotificationName := "test-notification"; ResendWait := 1;
     NotificationRecordItems := [item] |}.

(** Inside the resend window, at its end, and with no record at all. *)
Definition inside : World := world0 [record 1 (Some 0%Z)] (Hour - 1)%Z.
Definition due : World := world0 [record 1 (Some 0%Z)] Hour.
Definition empty : World := world0 [] 0%Z.

(** A record as the store keeps it when the status was dropped at
    creation. *)
Definition statusless : ManagedFleetNotificationRecord :=
  {| ObjectMeta_Name := "mc"; ObjectMeta_Namespace := OCMAgentNamespaceName;
     mfnr_Status := {| ManagementCluster := EmptyString; Status_RecordByName := [] |} |}.

(** Stand-ins for the JSON codec: one body decodes, to a batch without
    alerts; a response is rendered by its status. *)
Definition json_Decode (body : string) : error + Data :=
  if bool_decide (body = "{}")
  then inr {| Receiver := EmptyString; DataStatus := EmptyString; Alerts := [] |}
  else inl (Errorf "json: cannot unmarshal").

Definition json_Encode (resp : AMReceiverResponse) : error + string :=
  inr ("status=" ++ resp_Status resp).

Definition post (body : string) : Request := {| Method := "POST"; Body := body |}.
Definition get : Request := {| Method := "GET"; Body := EmptyString |}.

Definition processAlert' (a : Alert) : M World (option error) :=
  processAlert AMLabelAlertMCID AMLabelAlertHCID a notification.

Definition processAlert_mem' (a : Alert)
    : M World (option error * option ManagedFleetNotificationRecord) :=
  processAlert_mem AMLabelAlertMCID AMLabelAlertHCID a notification.

Definition handleFiring' (l : list Alert) : M World AMReceiverResponse :=
  handleFiring AMLabelTemplateName AMLabelAlertMCID AMLabelAlertHCID isValidAlert l.

Definition batch (l : list Alert) : Data :=
  {| Receiver := "r"; DataStatus := "firing"; Alerts := l |}.

Definition processAMReceiver' (l : list Alert) : M World AMReceiverResponse :=
  processAMReceiver AMLabelTemplateName AMLabelAlertMCID AMLabelAlertHCID isValidAlert
    (batch l).

Definition ServeHTTP' (r : Request) : M World (Outcome ResponseWriter) :=
  ServeHTTP AMLabelTemplateName AMLabelAlertMCID AMLabelAlertHCID WebhookReceiverPath
    isValidAlert json_Decode json_Encode newResponseWriter (Some r).

(** A hosted cluster the record does not know yet. *)
Definition newcomer : Alert := alert "firing" "test-notification" "mc" "hc2".

(** A record with status and without entries. *)
Definition no_entry : ManagedFleetNotificationRecord :=
  {| ObjectMeta_Name := "mc"; ObjectMeta_Namespace := OCMAgentNamespaceName;
     mfnr_Status := {| ManagementCluster := "mc"; Status_RecordByName := [] |} |}.



(** An encoder that gives up. *)
Definition json_Encode_failing (resp : AMReceiverResponse) : error + string :=
  inl (Errorf "json: unsupported type").

Definition ServeHTTP_unencoded (r : Request) : M World (Outcome ResponseWriter) :=
  ServeHTTP AMLabelTemplateName AMLabelAlertMCID AMLabelAlertHCID WebhookReceiverPath
    isValidAlert json_Decode json_Encode_failing newResponseWriter (Some r).

End fake.

(** ** A store that is down, for examples *)

Module outage.

Inductive World := Down.

Definition unavailable : error :=
  StatusError StatusReasonInternalError "the server is currently unable to handle the request".

#[global] Instance client : Client World := {|
  client_GetTemplate _ _ w := (inl unavailable, w);
  client_GetRecord _ _ w := (inl unavailable, w);
  client_Create _ w := (Some unavailable, w);
  client_StatusUpdate _ w := (Some unavailable, w)
|}.

#[global] Instance ocm : OCMClient World := {|
  ocm_SendServiceLog _ _ _ _ _ _ _ _ w := (None, w)
|}.

#[global] Instance wall_clock : Clock World := {| time_Now _ := 0%Z |}.

End outage.

(** ** The record library: lookups under the three mutations *)

Section RecordLemmas.

Lemma find_index_lookup {A} (p : A -> bool) (l : list A) (i : nat) :
  find_index p l = Some i -> exists x, l !! i = Some x /\ p x = true.
Proof.
  revert i; induction l as [|x l IH]; intros i; simpl; [done|].
  destruct (p x) eqn:Hp.
  - intros [= <-]. by exists x.
  - destruct (find_index p l) as [k|]; simpl; [|done].
    intros [= <-]. by apply IH.
Qed.

Lemma find_index_same {A} (p : A -> bool) (l l' : list A) :
  p <$> l = p <$> l' -> find_index p l = find_index p l'.
Proof.
  revert l'; induction l as [|x l IH]; intros [|x' l']; simpl; try done.
  intros [= Hx Hl]. rewrite Hx. by rewrite (IH l' Hl).
Qed.

Lemma find_index_app {A} (p : A -> bool) (l l' : list A) :
  find_index p (l ++ l') =
  match find_index p l with
  | Some i => Some i
  | None => (fun k => (length l + k)%nat) <$> find_index p l'
  end.
Proof.
  induction l as [|x l IH]; simpl.
  - by destruct (find_index p l').
  - destruct (p x); [done|]. rewrite IH.
    destruct (find_index p l); [done|]. by destruct (find_index p l').
Qed.

Lemma find_index_alter {A} (p : A -> bool) (f : A -> A) (i : nat) (l : list A) :
  (forall x, p (f x) = p x) -> find_index p (alter f i l) = find_index p l.
Proof.
  intros Hf. apply find_index_same.
  revert i; induction l as [|x l IH]; intros [|i]; simpl; try done.
  - f_equal. apply Hf.
  - f_equal. apply IH.
Qed.

Lemma find_index_insert {A} (p : A -> bool) (x y : A) (i : nat) (l : list A) :
  l !! i = Some x -> p y = p x -> find_index p (<[i := y]> l) = find_index p l.
Proof.
  intros Hl Hp. apply find_index_same.
  revert i Hl; induction l as [|z l IH]; intros [|i]; simpl; try done.
  - intros [= ->]. by f_equal.
  - intros Hl. f_equal. by apply IH.
Qed.

(** The item of a hosted cluster below a template, as the lookups of the
    library find it. *)
Lemma item_of_GetNotificationRecordItem m mcID name hcID it :
  GetNotificationRecordItem m mcID name hcID = inr it ->
  ManagementCluster (mfnr_Status m) = mcID /\ item_of m name hcID = Some it.
Proof.
  unfold GetNotificationRecordItem, GetNotificationRecordByName, item_of.
  repeat case_match; simplify_eq; try done.
  intros [= ->]. split; [by eapply bool_decide_eq_true_1|done].
Qed.

Lemma GetNotificationRecordItem_item_of m name hcID it :
  item_of m name hcID = Some it ->
  GetNotificationRecordItem m (ManagementCluster (mfnr_Status m)) name hcID = inr it.
Proof.
  unfold GetNotificationRecordItem, GetNotificationRecordByName, item_of.
  rewrite bool_decide_eq_true_2 by done.
  repeat case_match; simplify_eq; try done. by intros [= ->].
Qed.

(** Adding an item where one is missing leaves every item that was there
    as it is, and the new one has never been sent. *)
Lemma item_of_add_item m i r name hcID n h :
  find_index (named name) (Status_RecordByName (mfnr_Status m)) = Some i ->
  Status_RecordByName (mfnr_Status m) !! i = Some r ->
  item_of (with_records m (alter (add_item hcID) i (Status_RecordByName (mfnr_Status m)))) n h =
  match item_of m n h with
  | Some it => Some it
  | None => if bool_decide (n = name /\ h = hcID) then Some (new_item hcID) else None
  end.
Proof.
  intros Hi Hr. unfold item_of; simpl.
  rewrite find_index_alter by done.
  destruct (find_index (named n) (Status_RecordByName (mfnr_Status m))) as [k|] eqn:Hk; simpl.
  2:{ case_bool_decide as Hn; [|done]. destruct Hn as [-> _]. congruence. }
  destruct (decide (k = i)) as [->|Hne].
  - rewrite list_lookup_alter_eq, Hr; simpl.
    destruct (find_index_lookup _ _ _ Hk) as (r' & Hr' & Hn).
    destruct (find_index_lookup _ _ _ Hi) as (r'' & Hr'' & Hn').
    simplify_eq. apply bool_decide_eq_true_1 in Hn, Hn'.
    rewrite find_index_app; simpl.
    destruct (find_index (hosted h) (NotificationRecordItems r)) as [j|] eqn:Hj; simpl.
    + destruct (find_index_lookup _ _ _ Hj) as (it & Hit & _).
      rewrite lookup_app_l by (by eapply lookup_lt_Some). by rewrite Hit.
    + unfold hosted at 1; simpl. case_bool_decide as Hh; simpl.
      * rewrite Nat.add_0_r, list_lookup_middle by done.
        rewrite bool_decide_eq_true_2; [done|]. split; congruence.
      * rewrite bool_decide_eq_false_2; [done|]. intros [_ ->]. done.
  - rewrite list_lookup_alter_ne by done.
    destruct (Status_RecordByName (mfnr_Status m) !! k) as [r'|] eqn:Hr'; simpl; [|].
    2:{ destruct (find_index_lookup _ _ _ Hk) as (? & ? & _). congruence. }
    destruct (find_index (hosted h) (NotificationRecordItems r')) as [j|] eqn:Hj; simpl.
    + destruct (NotificationRecordItems r' !! j) eqn:Hit; [done|].
      destruct (find_index_lookup _ _ _ Hj) as (? & ? & _). congruence.
    + case_bool_decide as Hn; [|done]. destruct Hn as [-> _]. congruence.
Qed.

(** An entry without items, appended to the status, shows no item. *)
Lemma item_of_append_blank m name rswait n hc :
  item_of (with_records m
             (Status_RecordByName (mfnr_Status m)
              ++ [{| NotificationName := name; ResendWait := rswait;
                     NotificationRecordItems := [] |}])) n hc
  = item_of m n hc.
Proof.
  unfold item_of; simpl. rewrite find_index_app.
  destruct (find_index (named n) (Status_RecordByName (mfnr_Status m))) as [k|] eqn:Hk.
  - destruct (find_index_lookup _ _ _ Hk) as (r & Hr & _).
    by rewrite lookup_app_l by (by eapply lookup_lt_Some).
  - simpl. unfold named at 1; simpl. case_bool_decide; simpl; [|done].
    by rewrite Nat.add_0_r, list_lookup_middle.
Qed.

(** A successful update touches one item only: counter plus one, time of
    the call. *)
Lemma UpdateNotificationRecordItem_found m name hcID now it :
  item_of m name hcID = Some it ->
  exists m',
    UpdateNotificationRecordItem m name hcID now = (m', Some (sent_item now it), None)
    /\ forall n h,
         item_of m' n h =
         if bool_decide (n = name /\ h = hcID) then Some (sent_item now it)
         else item_of m n h.
Proof.
  unfold item_of, UpdateNotificationRecordItem. intros Hit.
  destruct (find_index (named name) (Status_RecordByName (mfnr_Status m))) as [i|] eqn:Hi; [|done].
  destruct (Status_RecordByName (mfnr_Status m) !! i) as [r|] eqn:Hr; [|done].
  destruct (find_index (hosted hcID) (NotificationRecordItems r)) as [j|] eqn:Hj; [|done].
  rewrite Hit. eexists; split; [done|]. intros n h; simpl.
  destruct (find_index_lookup _ _ _ Hi) as (? & ? & Hname).
  destruct (find_index_lookup _ _ _ Hj) as (? & ? & Hhc).
  simplify_eq. apply bool_decide_eq_true_1 in Hname, Hhc.
  rewrite (find_index_insert _ r) by done.
  destruct (find_index (named n) (Status_RecordByName (mfnr_Status m))) as [k|] eqn:Hk; simpl.
  2:{ rewrite bool_decide_eq_false_2; [done|]. intros [-> _]. congruence. }
  destruct (decide (k = i)) as [->|Hne].
  - rewrite list_lookup_insert_eq by (by eapply lookup_lt_Some). simpl.
    destruct (find_index_lookup _ _ _ Hk) as (? & ? & Hn).
    simplify_eq. apply bool_decide_eq_true_1 in Hn.
    rewrite Hr. rewrite (find_index_insert _ it) by done.
    destruct (find_index (hosted h) (NotificationRecordItems r)) as [j'|] eqn:Hj'; simpl.
    2:{ rewrite bool_decide_eq_false_2; [done|]. intros [_ ->]. congruence. }
    destruct (decide (j' = j)) as [->|Hne].
    + rewrite list_lookup_insert_eq by (by eapply lookup_lt_Some).
      destruct (find_index_lookup _ _ _ Hj') as (? & ? & Hh).
      simplify_eq. apply bool_decide_eq_true_1 in Hh.
      rewrite bool_decide_eq_true_2; [done|]. split; congruence.
    + rewrite list_lookup_insert_ne by done.
      rewrite bool_decide_eq_false_2; [done|]. intros [_ ->]. congruence.
  - rewrite list_lookup_insert_ne by done.
    rewrite bool_decide_eq_false_2; [done|]. intros [-> _]. congruence.
Qed.

(** The resend test, once the entry and the item are there. *)
Lemma CanBeSent_item m mcID name hcID now i r it :
  GetNotificationRecordByName m mcID name = inr i ->
  Status_RecordByName (mfnr_Status m) !! i = Some r ->
  GetNotificationRecordItem m mcID name hcID = inr it ->
  CanBeSent m mcID name hcID now =
  inr match LastTransitionTime it with
      | None => true
      | Some last => bool_decide (resendWaitDuration (ResendWait r) <= now - last)%Z
      end.
Proof.
  intros Hi Hr Hit. unfold CanBeSent. rewrite Hi, Hr, Hit.
  by destruct (LastTransitionTime it).
Qed.

Lemma CanBeSent_inr m mcID name hcID now b :
  CanBeSent m mcID name hcID now = inr b ->
  exists it, GetNotificationRecordItem m mcID name hcID = inr it.
Proof.
  unfold CanBeSent. repeat case_match; try done; intros _; by eexists.
Qed.

End RecordLemmas.

(** ** Locating the entry and the item *)

Section Locate.

Variables (fn : FleetNotification) (mcID hcID : string).

Lemma GetNotificationRecordItem_entry m it :
  GetNotificationRecordItem m mcID (fn_Name fn) hcID = inr it ->
  exists i, GetNotificationRecordByName m mcID (fn_Name fn) = inr i.
Proof.
  unfold GetNotificationRecordItem.
  destruct (GetNotificationRecordByName m mcID (fn_Name fn)); [done|]. by eexists.
Qed.

(** Entry and item are there: nothing is touched. *)
Lemma locate_found m it :
  GetNotificationRecordItem m mcID (fn_Name fn) hcID = inr it ->
  locate fn mcID hcID m = ({| mfnr := m; nfrbn := zero_nfrbn |}, None).
Proof.
  intros Hit. destruct (GetNotificationRecordItem_entry m it Hit) as [i Hi].
  unfold locate. rewrite Hi; simpl. by rewrite Hit.
Qed.

(** The entry is there: a missing item is added to it, in the record. *)
Lemma locate_entry m i :
  GetNotificationRecordByName m mcID (fn_Name fn) = inr i ->
  exists h,
    locate fn mcID hcID m = (h, None)
    /\ forall n hc,
         item_of (mfnr h) n hc =
         match item_of m n hc with
         | Some it => Some it
         | None => if bool_decide (n = fn_Name fn /\ hc = hcID)
                   then Some (new_item hcID) else None
         end.
Proof.
  intros Hi. unfold locate. rewrite Hi; simpl.
  destruct (GetNotificationRecordItem m mcID (fn_Name fn) hcID) as [e|it] eqn:Hit.
  - eexists; split; [done|]. intros n hc; simpl.
    unfold GetNotificationRecordByName in Hi.
    case_bool_decide; [|done].
    destruct (find_index _ _) as [k|] eqn:Hk; [|done]. simplify_eq.
    destruct (find_index_lookup _ _ _ Hk) as (r & Hr & _).
    by apply (item_of_add_item m i r).
  - eexists; split; [done|]. intros n hc; simpl.
    destruct (item_of m n hc) eqn:Hn; [done|].
    case_bool_decide as Heq; [|done]. destruct Heq as [-> ->].
    apply item_of_GetNotificationRecordItem in Hit as [_ Hit]. congruence.
Qed.

(** The entry is missing: a copy of the new entry goes to the record, the
    items go to the variable the copy was made from, and the resend test on
    the record fails. *)
Lemma locate_no_entry m e :
  GetNotificationRecordByName m mcID (fn_Name fn) = inl e ->
  exists h,
    locate fn mcID hcID m = (h, None)
    /\ (forall now, exists e', CanBeSent (mfnr h) mcID (fn_Name fn) hcID now = inl e')
    /\ (forall n hc, item_of (mfnr h) n hc = item_of m n hc).
Proof.
  intros He. unfold locate. rewrite He; simpl.
  set (e0 := {| NotificationName := fn_Name fn; ResendWait := fn_ResendWait fn;
                NotificationRecordItems := [] |}).
  set (m' := with_records m (Status_RecordByName (mfnr_Status m) ++ [e0])).
  assert (Hitems : forall n hc, item_of m' n hc = item_of m n hc)
    by (intros n hc; apply item_of_append_blank).
  assert (Hfail : exists e', GetNotificationRecordItem m' mcID (fn_Name fn) hcID = inl e').
  { destruct (GetNotificationRecordItem m' mcID (fn_Name fn) hcID) as [e'|it] eqn:Hit;
      [by eexists|].
    apply item_of_GetNotificationRecordItem in Hit as [Hmc Hit].
    rewrite Hitems in Hit. apply GetNotificationRecordItem_item_of in Hit.
    simpl in Hmc. rewrite Hmc in Hit.
    apply GetNotificationRecordItem_entry in Hit as [i Hi]. congruence. }
  destruct Hfail as [e' Hfail]. rewrite Hfail; simpl.
  eexists; split; [done|]. split; [|done].
  intros now; simpl. fold e0. fold m'.
  unfold CanBeSent. rewrite Hfail. repeat case_match; by eexists.
Qed.

Lemma locate_ok m : exists h, locate fn mcID hcID m = (h, None).
Proof.
  destruct (GetNotificationRecordByName m mcID (fn_Name fn)) as [e|i] eqn:Hi.
  - destruct (locate_no_entry m e Hi) as (h & ? & _). by exists h.
  - destruct (locate_entry m i Hi) as (h & ? & _). by exists h.
Qed.

(** Locating never changes a counter or a time of an item that exists, and
    what it adds has never been sent. *)
Lemma locate_sentCount m n hc :
  sentCount (mfnr (locate fn mcID hcID m).1) n hc = sentCount m n hc
  /\ lastSent (mfnr (locate fn mcID hcID m).1) n hc = lastSent m n hc.
Proof.
  unfold sentCount, lastSent.
  destruct (GetNotificationRecordByName m mcID (fn_Name fn)) as [e|i] eqn:Hi.
  - destruct (locate_no_entry m e Hi) as (h & -> & _ & Hitems). simpl.
    by rewrite Hitems.
  - destruct (locate_entry m i Hi) as (h & -> & Hitems). simpl.
    rewrite Hitems. destruct (item_of m n hc); [done|]. by case_bool_decide.
Qed.

(** A record without entries stays without items, and cannot be sent
    for. *)
Lemma locate_fresh m :
  Status_RecordByName (mfnr_Status m) = [] ->
  exists h,
    locate fn mcID hcID m = (h, None)
    /\ (forall now, exists e', CanBeSent (mfnr h) mcID (fn_Name fn) hcID now = inl e')
    /\ (forall n hc, item_of (mfnr h) n hc = None).
Proof.
  intros Hnil.
  destruct (GetNotificationRecordByName m mcID (fn_Name fn)) as [e|i] eqn:Hi.
  - destruct (locate_no_entry m e Hi) as (h & Hh & Hcan & Hitems).
    exists h. split; [done|]. split; [done|].
    intros n hc. rewrite Hitems. unfold item_of. by rewrite Hnil.
  - unfold GetNotificationRecordByName in Hi. rewrite Hnil in Hi.
    by case_bool_decide.
Qed.

End Locate.

(** ** Executions of [processAlert] *)



Section Executions.

Context {W : Type} `{!Client W, !OCMClient W, !Clock W}.
Variables AMLabelTemplateName AMLabelAlertMCID AMLabelAlertHCID : string.
Variable isValidAlert : Alert -> bool -> bool.

Local Abbreviation processAlert_mem := (processAlert_mem AMLabelAlertMCID AMLabelAlertHCID).
Local Abbreviation processAlert := (processAlert AMLabelAlertMCID AMLabelAlertHCID).
Local Abbreviation handleFiring :=
  (handleFiring AMLabelTemplateName AMLabelAlertMCID AMLabelAlertHCID isValidAlert).

(** The four ways through the resend test, the send and the write. *)
Lemma sendAndPersist_error mfn mcID hcID m (w : W) e :
  CanBeSent m mcID (fn_Name (mfn_FleetNotification mfn)) hcID (time_Now w) = inl e ->
  sendAndPersist mfn mcID hcID m w =
  ((Some e, m), w,
   [EvLog Error "unable to fetch NotificationrecordByName or NotificationRecordItem"]).
Proof. intros He. unfold sendAndPersist. unfold_M. simpl. by rewrite He. Qed.

Lemma sendAndPersist_not_due mfn mcID hcID m (w : W) :
  CanBeSent m mcID (fn_Name (mfn_FleetNotification mfn)) hcID (time_Now w) = inr false ->
  sendAndPersist mfn mcID hcID m w =
  ((None, m), w,
   [EvLog Info "not sending a notification as one was already sent recently"]).
Proof. intros He. unfold sendAndPersist. unfold_M. simpl. by rewrite He. Qed.

Lemma sendAndPersist_send_failed mfn mcID hcID m (w w1 : W) e :
  let fn := mfn_FleetNotification mfn in
  CanBeSent m mcID (fn_Name fn) hcID (time_Now w) = inr true ->
  ocm_SendServiceLog (fn_Summary fn) (fn_NotificationMessage fn) EmptyString hcID (fn_Severity fn)
    (fn_LogType fn) (fn_References fn) true w = (Some e, w1) ->
  sendAndPersist mfn mcID hcID m w =
  ((Some e, m), w1,
   [EvLog Info "will send servicelog for notification";
    EvSendServiceLog (fn_Summary fn) (fn_NotificationMessage fn) EmptyString hcID (fn_Severity fn)
      (fn_LogType fn) (fn_References fn) true (Some e);
    EvLog Error "unable to send a notification";
    EvSetResponseMetricFailure "service_logs"]).
Proof.
  intros fn He Hsend. unfold sendAndPersist. fold fn. unfold_M. simpl.
  rewrite He. simpl. by rewrite Hsend.
Qed.

Lemma sendAndPersist_sent mfn mcID hcID m (w w1 : W) :
  let fn := mfn_FleetNotification mfn in
  CanBeSent m mcID (fn_Name fn) hcID (time_Now w) = inr true ->
  ocm_SendServiceLog (fn_Summary fn) (fn_NotificationMessage fn) EmptyString hcID (fn_Severity fn)
    (fn_LogType fn) (fn_References fn) true w = (None, w1) ->
  exists it m',
    item_of m (fn_Name fn) hcID = Some it
    /\ (forall n h, item_of m' n h =
                     if bool_decide (n = fn_Name fn /\ h = hcID)
                     then Some (sent_item (time_Now w1) it) else item_of m n h)
    /\ sendAndPersist mfn mcID hcID m w =
       (let '(res, w2) := client_StatusUpdate m' w1 in
        ((res, m'), w2,
         [EvLog Info "will send servicelog for notification";
          EvSendServiceLog (fn_Summary fn) (fn_NotificationMessage fn) EmptyString hcID
            (fn_Severity fn) (fn_LogType fn) (fn_References fn) true None;
          EvResetMetric MetricResponseFailure;
          EvCountServiceLogSent (fn_Name fn) "firing";
          EvStatusUpdate m' res]
         ++ match res with
            | Some _ => [EvLog Error "unable to update notification status on cluster"]
            | None => []
            end)%list).
Proof.
  intros fn He Hsend.
  destruct (CanBeSent_inr _ _ _ _ _ _ He) as [it Hit].
  apply item_of_GetNotificationRecordItem in Hit as [_ Hit].
  destruct (UpdateNotificationRecordItem_found m (fn_Name fn) hcID (time_Now w1) it Hit)
    as (m' & Hup & Hitems).
  exists it, m'. split; [done|]. split; [done|].
  unfold sendAndPersist. fold fn. unfold_M. simpl.
  rewrite He. simpl. rewrite Hsend. simpl. rewrite Hup. simpl.
  by destruct (client_StatusUpdate m' w1) as [[e|] w2].
Qed.

Lemma sendAndPersist_cases mfn mcID hcID m (w : W) :
  let fn := mfn_FleetNotification mfn in
  let send := EvSendServiceLog (fn_Summary fn) (fn_NotificationMessage fn) EmptyString hcID
                (fn_Severity fn) (fn_LogType fn) (fn_References fn) true in
  (exists e, sendAndPersist mfn mcID hcID m w =
     ((Some e, m), w,
      [EvLog Error "unable to fetch NotificationrecordByName or NotificationRecordItem"]))
  \/ sendAndPersist mfn mcID hcID m w =
     ((None, m), w,
      [EvLog Info "not sending a notification as one was already sent recently"])
  \/ (exists e w1, sendAndPersist mfn mcID hcID m w =
        ((Some e, m), w1,
         [EvLog Info "will send servicelog for notification"; send (Some e);
          EvLog Error "unable to send a notification";
          EvSetResponseMetricFailure "service_logs"]))
  \/ (exists it m' w1 res w2,
        item_of m (fn_Name fn) hcID = Some it
        /\ (forall n h, item_of m' n h =
                        if bool_decide (n = fn_Name fn /\ h = hcID)
                        then Some (sent_item (time_Now w1) it) else item_of m n h)
        /\ client_StatusUpdate m' w1 = (res, w2)
        /\ sendAndPersist mfn mcID hcID m w =
           ((res, m'), w2,
            [EvLog Info "will send servicelog for notification"; send None;
             EvResetMetric MetricResponseFailure;
             EvCountServiceLogSent (fn_Name fn) "firing";
             EvStatusUpdate m' res]
            ++ match res with
               | Some _ => [EvLog Error "unable to update notification status on cluster"]
               | None => []
               end)%list).
Proof.
  intros fn send.
  destruct (CanBeSent m mcID (fn_Name fn) hcID (time_Now w)) as [e|[|]] eqn:Hcan.
  - left. exists e. exact (sendAndPersist_error mfn mcID hcID m w e Hcan).
  - destruct (ocm_SendServiceLog (fn_Summary fn) (fn_NotificationMessage fn) EmptyString hcID
                (fn_Severity fn) (fn_LogType fn) (fn_References fn) true w)
      as [[e'|] w1] eqn:Hsend.
    + right; right; left. exists e', w1.
      exact (sendAndPersist_send_failed mfn mcID hcID m w w1 e' Hcan Hsend).
    + right; right; right.
      destruct (sendAndPersist_sent mfn mcID hcID m w w1 Hcan Hsend)
        as (it & m' & Hit & Hitems & Hrun).
      destruct (client_StatusUpdate m' w1) as [res w2] eqn:Hup.
      by exists it, m', w1, res, w2.
  - right; left. exact (sendAndPersist_not_due mfn mcID hcID m w Hcan).
Qed.

(** A record that comes with its status: [processAlert] is the fetch, then
    the resend test on the located record. *)
Lemma processAlert_mem_fetched alert mfn (w w1 : W) m :
  let fn := mfn_FleetNotification mfn in
  let mcID := label alert AMLabelAlertMCID in
  let hcID := label alert AMLabelAlertHCID in
  client_GetRecord OCMAgentNamespaceName mcID w = (inr m, w1) ->
  ManagementCluster (mfnr_Status m) <> EmptyString ->
  processAlert_mem alert mfn w =
  (let '(r, w2, t) := sendAndPersist mfn mcID hcID (mfnr (locate fn mcID hcID m).1) w1 in
   ((r.1, Some r.2), w2, EvGetRecord OCMAgentNamespaceName mcID (inr m) :: t)).
Proof.
  intros fn mcID hcID Hget Hst.
  unfold processAlert_mem, fetchOrCreate, ensureStatus. fold mcID hcID fn.
  unfold_M. rewrite Hget. simpl.
  rewrite bool_decide_eq_false_2 by done. simpl.
  destruct (locate_ok fn mcID hcID m) as [h Hh]. rewrite Hh. simpl.
  destruct (sendAndPersist mfn mcID hcID (mfnr h) w1) as [[[err m2] w2] t]. simpl.
  by rewrite app_nil_r.
Qed.



Lemma processAlert_mem_cases alert mfn (w : W) :
  let mcID := label alert AMLabelAlertMCID in
  (exists m w1,
      client_GetRecord OCMAgentNamespaceName mcID w = (inr m, w1)
      /\ ManagementCluster (mfnr_Status m) <> EmptyString)
  \/ ((forall m w1, client_GetRecord OCMAgentNamespaceName mcID w = (inr m, w1) ->
                    ManagementCluster (mfnr_Status m) = EmptyString)
      /\ fresh_run (result (processAlert_mem alert mfn) w) (trace (processAlert_mem alert mfn) w)).
Proof.
  intros mcID.
  set (fn := mfn_FleetNotification mfn). set (hcID := label alert AMLabelAlertHCID).
  destruct (client_GetRecord OCMAgentNamespaceName mcID w) as [[e|m] w1] eqn:Hget.
  2:{ destruct (decide (ManagementCluster (mfnr_Status m) = EmptyString)) as [Hst|Hst];
        [right|left; by exists m, w1].
      split; [by intros ?? [= <- <-]|].
      unfold result, trace, processAlert_mem, fetchOrCreate, ensureStatus.
      fold mcID hcID fn. unfold_M. rewrite Hget. simpl.
      rewrite bool_decide_eq_true_2 by done. simpl.
      set (m1 := with_status m _).
      destruct (client_StatusUpdate m1 w1) as [[e|] w2] eqn:Hup; simpl.
      - fresh_run_tac.
      - destruct (locate_fresh fn mcID hcID m1 eq_refl) as (h & Hh & Hcan & Hblank).
        rewrite Hh. simpl.
        destruct (Hcan (time_Now w2)) as [e He].
        rewrite (sendAndPersist_error mfn mcID hcID (mfnr h) w2 e He). simpl.
        fresh_run_tac. }
  right. split; [intros ??; congruence|].
  unfold result, trace, processAlert_mem, fetchOrCreate, createManagedFleetNotificationRecord,
    ensureStatus.
  fold mcID hcID fn. unfold_M. rewrite Hget. simpl.
  destruct (IsNotFound e); simpl; [|fresh_run_tac].
  set (m0 := {| ObjectMeta_Name := mcID |}).
  destruct (client_Create m0 w1) as [[e'|] w2] eqn:Hcreate; simpl; [fresh_run_tac|].
  case_bool_decide as Hmc; simpl.
  - set (m1 := with_status m0 _).
    destruct (client_StatusUpdate m1 w2) as [[e'|] w3] eqn:Hup; simpl; [fresh_run_tac|].
    destruct (locate_fresh fn mcID hcID m1 eq_refl) as (h & Hh & Hcan & Hblank).
    rewrite Hh. simpl.
    destruct (Hcan (time_Now w3)) as [e' He].
    rewrite (sendAndPersist_error mfn mcID hcID (mfnr h) w3 e' He). simpl.
    fresh_run_tac.
  - destruct (locate_fresh fn mcID hcID m0 eq_refl) as (h & Hh & Hcan & Hblank).
    rewrite Hh. simpl.
    destruct (Hcan (time_Now w2)) as [e' He].
    rewrite (sendAndPersist_error mfn mcID hcID (mfnr h) w2 e' He). simpl.
    fresh_run_tac.
Qed.

Lemma count_of_In (p : Event -> bool) (e : Event) (tr : list Event) :
  In e tr -> p e = true -> count_of p tr <> 0%nat.
Proof.
  intros Hin Hp Hc. unfold count_of in Hc.
  apply length_zero_iff_nil in Hc.
  assert (In e (List.filter p tr)) as Hf by (apply filter_In; done).
  by rewrite Hc in Hf.
Qed.

(** ** The resend window *)

(** C1. A firing alert whose record holds an item that was sent less than
    the resend wait ago: [processAlert] fetches the record, logs, and
    returns nil, with no send, no write, and the record object as it was
    fetched.  When the last send is at least the resend wait old, the OCM
    client is called. *)
Theorem processAlert_resend_window alert mfn (w w1 : W) m i r it last :
  let fn := mfn_FleetNotification mfn in
  let mcID := label alert AMLabelAlertMCID in
  let hcID := label alert AMLabelAlertHCID in
  mcID <> EmptyString ->
  client_GetRecord OCMAgentNamespaceName mcID w = (inr m, w1) ->
  GetNotificationRecordByName m mcID (fn_Name fn) = inr i ->
  Status_RecordByName (mfnr_Status m) !! i = Some r ->
  GetNotificationRecordItem m mcID (fn_Name fn) hcID = inr it ->
  LastTransitionTime it = Some last ->
  ((time_Now w1 - last < resendWaitDuration (ResendWait r))%Z ->
     processAlert_mem alert mfn w =
     ((None, Some m), w1,
      [EvGetRecord OCMAgentNamespaceName mcID (inr m);
       EvLog Info "not sending a notification as one was already sent recently"])
     /\ result (processAlert alert mfn) w = None
     /\ count_of is_send (trace (processAlert alert mfn) w) = 0%nat
     /\ count_of is_write (trace (processAlert alert mfn) w) = 0%nat)
  /\ ((resendWaitDuration (ResendWait r) <= time_Now w1 - last)%Z ->
      exists res,
        In (EvSendServiceLog (fn_Summary fn) (fn_NotificationMessage fn) EmptyString hcID
              (fn_Severity fn) (fn_LogType fn) (fn_References fn) true res)
           (trace (processAlert alert mfn) w)).
Proof.
  intros fn mcID hcID Hmc Hget Hi Hr Hit Hlast.
  assert (Hst : ManagementCluster (mfnr_Status m) <> EmptyString).
  { apply item_of_GetNotificationRecordItem in Hit as [Hm _]. fold mcID in Hm. congruence. }
  pose proof (processAlert_mem_fetched alert mfn w w1 m Hget Hst) as Hrun.
  fold fn mcID hcID in Hrun. simpl in Hrun.
  rewrite (locate_found fn mcID hcID m it Hit) in Hrun. simpl in Hrun.
  pose proof (CanBeSent_item m mcID (fn_Name fn) hcID (time_Now w1) i r it Hi Hr Hit) as Hcan.
  rewrite Hlast in Hcan.
  split; intros Hwin.
  - rewrite bool_decide_eq_false_2 in Hcan by lia.
    rewrite (sendAndPersist_not_due mfn mcID hcID m w1 Hcan) in Hrun. simpl in Hrun.
    split; [done|].
    unfold result, trace, processAlert. unfold_M. fold processAlert_mem.
    by rewrite Hrun.
  - rewrite bool_decide_eq_true_2 in Hcan by lia.
    unfold trace, processAlert. unfold_M. fold processAlert_mem. rewrite Hrun.
    destruct (ocm_SendServiceLog (fn_Summary fn) (fn_NotificationMessage fn) EmptyString hcID
                (fn_Severity fn) (fn_LogType fn) (fn_References fn) true w1)
      as [[e|] w2] eqn:Hsend.
    + rewrite (sendAndPersist_send_failed mfn mcID hcID m w1 w2 e Hcan Hsend). simpl.
      eexists. right. right. by left.
    + destruct (sendAndPersist_sent mfn mcID hcID m w1 w2 Hcan Hsend)
        as (it' & m' & _ & _ & ->).
      destruct (client_StatusUpdate m' w2) as [res w3]. simpl.
      eexists. right. right. by left.
Qed.

Lemma processAlert_eq alert mfn (w : W) :
  processAlert alert mfn w =
  (let '(r, w', t) := processAlert_mem alert mfn w in (r.1, w', t)).
Proof.
  unfold processAlert. unfold_M. fold processAlert_mem.
  destruct (processAlert_mem alert mfn w) as [[r w'] t]. by rewrite app_nil_r.
Qed.

Lemma trace_processAlert alert mfn (w : W) :
  trace (processAlert alert mfn) w = trace (processAlert_mem alert mfn) w.
Proof.
  unfold trace. rewrite processAlert_eq.
  by destruct (processAlert_mem alert mfn w) as [[r w'] t].
Qed.

Lemma result_processAlert alert mfn (w : W) :
  result (processAlert alert mfn) w = (result (processAlert_mem alert mfn) w).1.
Proof.
  unfold result. rewrite processAlert_eq.
  by destruct (processAlert_mem alert mfn w) as [[r w'] t].
Qed.

(** ** A failed write of the status *)

(** C8, as the code has it.  A status write that fails, with a conflict or
    with any other error, is the last call [processAlert] makes: the error
    goes back to the caller as it is, the record is not fetched again and
    the write is not repeated. *)
Theorem processAlert_status_error_is_final alert mfn (w : W) pre obj e post :
  trace (processAlert alert mfn) w = (pre ++ EvStatusUpdate obj (Some e) :: post)%list ->
  result (processAlert alert mfn) w = Some e
  /\ count_of is_call post = 0%nat
  /\ count_of is_get_record (pre ++ EvStatusUpdate obj (Some e) :: post) = 1%nat.
Proof.
  rewrite trace_processAlert, result_processAlert. unfold trace, result.
  unfold processAlert_mem, fetchOrCreate, createManagedFleetNotificationRecord,
    ensureStatus, sendAndPersist.
  unfold_M. intros Htr.
  repeat (simpl in *; case_match; simplify_eq);
    repeat (destruct pre as [|? pre]; simpl in *; simplify_eq); done.
Qed.

(** One firing alert of the batch whose template is found and which passes
    the filter: its processing, a log line if it failed, then the rest. *)
Lemma handleFiring_cons alert rest mfn (w0 w : W) :
  client_GetTemplate OCMAgentNamespaceName (label alert AMLabelTemplateName) w0
    = (inr mfn, w) ->
  isValidAlert alert true = true ->
  handleFiring (alert :: rest) w0 =
  (let '(err, w2, t2) := processAlert alert mfn w in
   let '(resp, w3, t3) := handleFiring rest w2 in
   (resp, w3,
    EvGetTemplate OCMAgentNamespaceName (label alert AMLabelTemplateName) (inr mfn)
    :: t2
    ++ match err with
       | Some _ => [EvLog Error "a firing alert could not be successfully processed"]
       | None => []
       end
    ++ t3)%list).
Proof.
  intros Hget Hvalid. simpl. unfold handleAlert. unfold_M.
  rewrite Hget, Hvalid. simpl.
  destruct (processAlert alert mfn w) as [[err w2] t2].
  destruct err; simpl;
    destruct (handleFiring rest w2) as [[resp w3] t3]; simpl;
    by rewrite ?app_nil_r, <- ?app_assoc.
Qed.

(** ** A send that fails *)

(** C4. When the OCM client answers the send with an error, [processAlert]
    returns that error; the execution contains no write to the store and
    no tick of the sent metric; the record object has, for every template
    and hosted cluster, the counter and the time of last send of the
    fetched record; and [processAMReceiver] logs the failure and goes on
    with the rest of the batch. *)
Theorem processAlert_send_error alert mfn (w : W) s a r t sev lt refs f e :
  let mcID := label alert AMLabelAlertMCID in
  In (EvSendServiceLog s a r t sev lt refs f (Some e)) (trace (processAlert alert mfn) w) ->
  result (processAlert alert mfn) w = Some e
  /\ count_of is_write (trace (processAlert alert mfn) w) = 0%nat
  /\ count_of is_count (trace (processAlert alert mfn) w) = 0%nat
  /\ (exists m w1 m',
        client_GetRecord OCMAgentNamespaceName mcID w = (inr m, w1)
        /\ (result (processAlert_mem alert mfn) w).2 = Some m'
        /\ forall n hc,
             sentCount m' n hc = sentCount m n hc /\ lastSent m' n hc = lastSent m n hc)
  /\ (forall rest w0,
        client_GetTemplate OCMAgentNamespaceName (label alert AMLabelTemplateName) w0
          = (inr mfn, w) ->
        isValidAlert alert true = true ->
        handleFiring (alert :: rest) w0 =
        (let '(resp, w3, t3) := handleFiring rest (world (processAlert alert mfn) w) in
         (resp, w3,
          EvGetTemplate OCMAgentNamespaceName (label alert AMLabelTemplateName) (inr mfn)
          :: trace (processAlert alert mfn) w
          ++ EvLog Error "a firing alert could not be successfully processed" :: t3)%list)).
Proof.
  intros mcID Hin.
  assert (Hres : result (processAlert alert mfn) w = Some e
          /\ count_of is_write (trace (processAlert alert mfn) w) = 0%nat
          /\ count_of is_count (trace (processAlert alert mfn) w) = 0%nat
          /\ (exists m w1 m',
                client_GetRecord OCMAgentNamespaceName mcID w = (inr m, w1)
                /\ (result (processAlert_mem alert mfn) w).2 = Some m'
                /\ forall n hc, sentCount m' n hc = sentCount m n hc
                                /\ lastSent m' n hc = lastSent m n hc)).
  { rewrite trace_processAlert, result_processAlert in *.
    destruct (processAlert_mem_cases alert mfn w) as [(m & w1 & Hget & Hst)|[_ Hfresh]].
    2:{ destruct Hfresh as (_ & Hsend & _). by apply (count_of_In is_send) in Hin. }
    pose proof (processAlert_mem_fetched alert mfn w w1 m Hget Hst) as Hrun.
    simpl in Hrun. fold mcID in Hrun, Hget.
    set (fn := mfn_FleetNotification mfn) in *.
    set (hcID := label alert AMLabelAlertHCID) in *.
    pose proof (locate_sentCount fn mcID hcID m) as Hloc.
    set (ml := mfnr (locate fn mcID hcID m).1) in *.
    unfold trace, result in *. rewrite Hrun in *. clear Hrun.
    destruct (sendAndPersist_cases mfn mcID hcID ml w1)
      as [[e' Hs]|[Hs|[(e' & w2 & Hs)|(it & m' & w2 & res & w3 & _ & _ & _ & Hs)]]];
      rewrite Hs in *; clear Hs; simpl in *.
    - in_trace Hin.
    - in_trace Hin.
    - in_trace Hin. assert (e' = e) as -> by congruence.
      do 3 (split; [done|]). by exists m, w1, ml.
    - destruct res; in_trace Hin. }
  destruct Hres as (Herr & Hw & Hc & Hmem). do 4 (split; [done|]).
  intros rest w0 Hget Hvalid.
  rewrite (handleFiring_cons alert rest mfn w0 w Hget Hvalid).
  unfold result, world, trace in *.
  destruct (processAlert alert mfn w) as [[err w2] t2]. simpl in *. subst err.
  by destruct (handleFiring rest w2) as [[resp w3] t3].
Qed.

Lemma existsb_is_sent tr :
  existsb is_sent tr = true -> count_of is_send tr <> 0%nat.
Proof.
  intros (e & Hin & He)%existsb_exists.
  apply (count_of_In is_send e tr Hin). by destruct e.
Qed.

(** ** A write that fails after the send *)

(** C6. The send succeeded and the write of the updated record came back
    with an error: [processAlert] returns that error, and the OCM client
    was called once. *)
Theorem processAlert_persist_error alert mfn (w : W) obj e :
  existsb is_sent (trace (processAlert alert mfn) w) = true ->
  In (EvStatusUpdate obj (Some e)) (trace (processAlert alert mfn) w) ->
  result (processAlert alert mfn) w = Some e
  /\ count_of is_send (trace (processAlert alert mfn) w) = 1%nat.
Proof.
  rewrite trace_processAlert, result_processAlert. intros Hsent Hin.
  destruct (processAlert_mem_cases alert mfn w) as [(m & w1 & Hget & Hst)|[_ Hfresh]].
  2:{ destruct Hfresh as (_ & Hsend & _). by apply existsb_is_sent in Hsent. }
  pose proof (processAlert_mem_fetched alert mfn w w1 m Hget Hst) as Hrun.
  simpl in Hrun. unfold trace, result in *. rewrite Hrun in *. clear Hrun.
  destruct (sendAndPersist_cases mfn (label alert AMLabelAlertMCID)
              (label alert AMLabelAlertHCID)
              (mfnr (locate (mfn_FleetNotification mfn) (label alert AMLabelAlertMCID)
                       (label alert AMLabelAlertHCID) m).1) w1)
    as [[e' Hs]|[Hs|[(e' & w2 & Hs)|(it & m' & w2 & res & w3 & _ & _ & _ & Hs)]]];
    rewrite Hs in *; clear Hs; simpl in *; try done.
  destruct res; in_trace Hin.
Qed.

(** ** The sent counter *)





End Executions.

(** ** Creation and reuse of the record; the copy made by [append] *)

Section Creation.

Context {W : Type} `{!Client W, !OCMClient W, !Clock W}.
Variables AMLabelAlertMCID AMLabelAlertHCID : string.

Local Abbreviation processAlert := (processAlert AMLabelAlertMCID AMLabelAlertHCID).

(** C7. When the store has no record for the management cluster of the
    alert, the call that follows the fetch creates it, named after the
    cluster and with a status that names the cluster and has no entry;
    nothing is sent before, and if the creation fails its error is returned
    and no other call is made.  When the store has the record, it is used
    and nothing is created; if it has no status yet, the call that
    follows the fetch writes the initial status, and a failure of that
    write ends the execution the same way. *)
Theorem processAlert_creates_or_reuses alert mfn (w : W) :
  let mcID := label alert AMLabelAlertMCID in
  let tr := trace (processAlert alert mfn) w in
  let init := {| ObjectMeta_Name := mcID;
                 ObjectMeta_Namespace := OCMAgentNamespaceName;
                 mfnr_Status := {| ManagementCluster := mcID; Status_RecordByName := [] |} |} in
  (forall e w1,
      client_GetRecord OCMAgentNamespaceName mcID w = (inl e, w1) ->
      IsNotFound e = true ->
      exists rest,
        tr = EvGetRecord OCMAgentNamespaceName mcID (inl e)
             :: EvCreate init (client_Create init w1).1 :: rest
        /\ count_of is_create rest = 0%nat
        /\ count_of is_get_record rest = 0%nat
        /\ forall e', (client_Create init w1).1 = Some e' ->
                      result (processAlert alert mfn) w = Some e'
                      /\ count_of is_call rest = 0%nat)
  /\ (forall m w1,
        client_GetRecord OCMAgentNamespaceName mcID w = (inr m, w1) ->
        exists rest,
          tr = EvGetRecord OCMAgentNamespaceName mcID (inr m) :: rest
          /\ count_of is_create rest = 0%nat
          /\ count_of is_get_record rest = 0%nat
          /\ (ManagementCluster (mfnr_Status m) = EmptyString ->
              let m1 := with_status m {| ManagementCluster := mcID; Status_RecordByName := [] |} in
              exists rest',
                rest = EvStatusUpdate m1 (client_StatusUpdate m1 w1).1 :: rest'
                /\ forall e', (client_StatusUpdate m1 w1).1 = Some e' ->
                              result (processAlert alert mfn) w = Some e'
                              /\ count_of is_call rest' = 0%nat)).
Proof.
  intros mcID tr init. subst tr.
  rewrite trace_processAlert, result_processAlert. unfold trace, result.
  unfold processAlert_mem, fetchOrCreate, createManagedFleetNotificationRecord,
    ensureStatus, sendAndPersist.
  fold mcID. fold init. unfold_M.
  split.
  - intros e w1 Hget Hnf. rewrite Hget. simpl. rewrite Hnf. simpl.
    destruct (client_Create init w1) as [[e'|] w2]; simpl.
    + eexists; split; [done|]. repeat split; try done; by intros ? [= <-].
    + repeat (simpl in *; case_match; simplify_eq);
        (eexists; split; [done|]; repeat split; done).
  - intros m w1 Hget. rewrite Hget. simpl.
    case_bool_decide as Hst; simpl.
    + set (m1 := with_status m _).
      destruct (client_StatusUpdate m1 w1) as [[e'|] w2] eqn:Hup; simpl.
      * eexists; split; [done|]. do 2 (split; [done|]). intros _.
        eexists; split; [done|]. by intros ? [= <-].
      * repeat (simpl in *; case_match; simplify_eq);
          (eexists; split; [done|]; do 2 (split; [done|]); intros _;
           eexists; split; [done|]; by intros ? [=]).
    + repeat (simpl in *; case_match; simplify_eq);
        (eexists; split; [done|]; do 2 (split; [done|]); by intros ?).
Qed.

End Creation.

(** C10. [addNotificationRecordByName] appends to the status slice an entry
    without items, and adds the item of the hosted cluster to the variable
    that entry was copied from: the pointer it returns is the address of
    that variable, whose item list has the new item, while the list of the
    stored entry stays empty, so that the record shows the same items after
    the call as before. *)
Theorem addNotificationRecordByName_stores_a_copy name rswait hcID (h : Heap) :
  let '(h', nfr, err) := addNotificationRecordByName name rswait hcID h in
  let stored := {| NotificationName := name; ResendWait := rswait;
                   NotificationRecordItems := [] |} in
  err = None
  /\ nfr = Escaped
  /\ Status_RecordByName (mfnr_Status (mfnr h'))
     = (Status_RecordByName (mfnr_Status (mfnr h)) ++ [stored])%list
  /\ last (Status_RecordByName (mfnr_Status (mfnr h'))) = Some stored
  /\ nfrbn h' = {| NotificationName := name; ResendWait := rswait;
                   NotificationRecordItems := [new_item hcID] |}
  /\ NotificationRecordItems (nfrbn h') <> NotificationRecordItems stored
  /\ forall n hc, item_of (mfnr h') n hc = item_of (mfnr h) n hc.
Proof.
  unfold addNotificationRecordByName; simpl.
  split; [done|]. split; [done|]. split; [done|].
  split; [by rewrite last_snoc|]. split; [done|]. split; [done|].
  intros n hc. apply item_of_append_blank.
Qed.

(** ** The batch *)

Section Batch.

Context {W : Type} `{!Client W, !OCMClient W, !Clock W}.
Variables AMLabelTemplateName AMLabelAlertMCID AMLabelAlertHCID : string.
Variable isValidAlert : Alert -> bool -> bool.

Local Abbreviation processAlert := (processAlert AMLabelAlertMCID AMLabelAlertHCID).
Local Abbreviation handleAlert :=
  (handleAlert AMLabelTemplateName AMLabelAlertMCID AMLabelAlertHCID isValidAlert).
Local Abbreviation handleFiring :=
  (handleFiring AMLabelTemplateName AMLabelAlertMCID AMLabelAlertHCID isValidAlert).
Local Abbreviation processAMReceiver :=
  (processAMReceiver AMLabelTemplateName AMLabelAlertMCID AMLabelAlertHCID isValidAlert).



Lemma processAlert_firing_send alert mfn (w : W) :
  Forall firing_send (trace (processAlert alert mfn) w)
  /\ lookups (trace (processAlert alert mfn) w) = [].
Proof.
  rewrite trace_processAlert. unfold trace.
  unfold processAlert_mem, fetchOrCreate, createManagedFleetNotificationRecord,
    ensureStatus, sendAndPersist.
  unfold_M.
  repeat (simpl in *; case_match; simplify_eq);
    (split; [repeat constructor|done]).
Qed.

(** The lookup of a template fails: the function returns from the loop. *)
Lemma handleAlert_abort alert (w w1 : W) err :
  client_GetTemplate OCMAgentNamespaceName (label alert AMLabelTemplateName) w
    = (inl err, w1) ->
  handleAlert alert w =
  (Some (not_found_response (label alert AMLabelTemplateName) err), w1,
   [EvGetTemplate OCMAgentNamespaceName (label alert AMLabelTemplateName) (inl err);
    EvLog Error "unable to locate corresponding notification template"]).
Proof. intros Hget. unfold handleAlert. unfold_M. by rewrite Hget. Qed.

(** What one turn of the loop does: one lookup, sends of the firing kind
    only, and a return exactly when the lookup fails. *)
Lemma handleAlert_spec alert (w : W) :
  Forall firing_send (trace (handleAlert alert) w)
  /\ lookups (trace (handleAlert alert) w) = [label alert AMLabelTemplateName]
  /\ match result (handleAlert alert) w with
     | Some resp => exists err, resp = not_found_response (label alert AMLabelTemplateName) err
     | None => True
     end.
Proof.
  unfold trace, result, handleAlert. unfold_M.
  destruct (client_GetTemplate OCMAgentNamespaceName (label alert AMLabelTemplateName) w)
    as [[err|mfn] w0] eqn:Hget; simpl.
  - split; [repeat constructor|]. split; [done|]. by exists err.
  - destruct (isValidAlert alert true); simpl.
    + pose proof (processAlert_firing_send alert mfn w0) as [Hsend Hlook].
      unfold trace in Hsend, Hlook.
      destruct (processAlert alert mfn w0) as [[err w2] t2]. simpl in *.
      destruct err; simpl; rewrite ?app_nil_r.
      * split; [|split; [|done]].
        -- constructor; [done|]. apply Forall_app. split; [done|]. repeat constructor.
        -- unfold lookups in *. by rewrite omap_app, Hlook.
      * split; [by constructor|]. split; [|done].
        by rewrite Hlook.
    + split; [repeat constructor|]. by split.
Qed.

Lemma handleFiring_cons_eq alert rest (w : W) :
  handleFiring (alert :: rest) w =
  (let '(returned, w1, t1) := handleAlert alert w in
   match returned with
   | Some resp => (resp, w1, t1)
   | None => let '(resp, w2, t2) := handleFiring rest w1 in (resp, w2, (t1 ++ t2)%list)
   end).
Proof.
  simpl. unfold_M. destruct (handleAlert alert w) as [[[resp|] w1] t1]; simpl.
  - by rewrite app_nil_r.
  - done.
Qed.

(** The loop answers [ok] or with the error of a failed lookup. *)
Lemma handleFiring_response alerts (w : W) :
  result (handleFiring alerts) w = ok_response
  \/ exists name err, result (handleFiring alerts) w = not_found_response name err.
Proof.
  revert w; induction alerts as [|alert rest IH]; intros w; [by left|].
  unfold result in *. rewrite handleFiring_cons_eq.
  pose proof (handleAlert_spec alert w) as (_ & _ & Hres). unfold result in Hres.
  destruct (handleAlert alert w) as [[[resp|] w1] t1]; simpl in *.
  - right. destruct Hres as [err ->]. by eexists _, _.
  - specialize (IH w1). by destruct (handleFiring rest w1) as [[resp w2] t2].
Qed.

(** The loop over a batch in two parts. *)
Lemma handleFiring_app pre rest (w : W) :
  handleFiring (pre ++ rest) w =
  (let '(resp, w1, t1) := handleFiring pre w in
   match resp_Error resp with
   | Some _ => (resp, w1, t1)
   | None => let '(resp', w2, t2) := handleFiring rest w1 in (resp', w2, (t1 ++ t2)%list)
   end).
Proof.
  revert w; induction pre as [|alert pre IH]; intros w.
  - simpl. unfold_M. by destruct (handleFiring rest w) as [[resp w1] t1].
  - rewrite <- app_comm_cons, !handleFiring_cons_eq.
    pose proof (handleAlert_spec alert w) as (_ & _ & Hres). unfold result in Hres.
    destruct (handleAlert alert w) as [[[resp|] w1] t1]; simpl in *.
    + by destruct Hres as [err ->].
    + rewrite IH. destruct (handleFiring pre w1) as [[resp w2] t2].
      destruct (resp_Error resp); [done|].
      destruct (handleFiring rest w2) as [[resp' w3] t3]. by rewrite app_assoc.
Qed.

Lemma handleFiring_sends alerts (w : W) :
  Forall firing_send (trace (handleFiring alerts) w).
Proof.
  revert w; induction alerts as [|alert rest IH]; intros w; [constructor|].
  unfold trace in *. rewrite handleFiring_cons_eq.
  pose proof (handleAlert_spec alert w) as (Hsend & _ & _). unfold trace in Hsend.
  destruct (handleAlert alert w) as [[[resp|] w1] t1]; simpl in *; [done|].
  specialize (IH w1). destruct (handleFiring rest w1) as [[resp w2] t2].
  apply Forall_app. by split.
Qed.

Lemma handleFiring_lookups alerts (w : W) :
  resp_Error (result (handleFiring alerts) w) = None ->
  lookups (trace (handleFiring alerts) w)
  = (fun a => label a AMLabelTemplateName) <$> alerts.
Proof.
  revert w; induction alerts as [|alert rest IH]; intros w; [done|].
  unfold trace, result in *. rewrite handleFiring_cons_eq.
  pose proof (handleAlert_spec alert w) as (_ & Hlook & Hres).
  unfold trace, result in Hlook, Hres.
  destruct (handleAlert alert w) as [[[resp|] w1] t1]; simpl in *.
  - by destruct Hres as [err ->].
  - specialize (IH w1). destruct (handleFiring rest w1) as [[resp w2] t2]. simpl in *.
    intros Hok. unfold lookups in *. rewrite omap_app, Hlook, (IH Hok). done.
Qed.

(** C2, as the code has it.  When the template of a firing alert cannot be
    fetched, and the alerts before it went through, [processAMReceiver]
    logs the error and returns at once: the response carries the error,
    the status [unable to find ManagedFleetNotification] with the name of
    the template, and code 500; the alerts that follow are not looked at,
    whatever they are. *)
Theorem processAMReceiver_template_not_found d pre alert rest (w w1 : W) err :
  Firing (Alerts d) = (pre ++ alert :: rest)%list ->
  resp_Error (result (handleFiring pre) w) = None ->
  client_GetTemplate OCMAgentNamespaceName (label alert AMLabelTemplateName)
    (world (handleFiring pre) w) = (inl err, w1) ->
  processAMReceiver d w =
  (not_found_response (label alert AMLabelTemplateName) err, w1,
   EvLog Info "Process alert data"
   :: trace (handleFiring pre) w
   ++ [EvGetTemplate OCMAgentNamespaceName (label alert AMLabelTemplateName) (inl err);
       EvLog Error "unable to locate corresponding notification template"])%list.
Proof.
  intros Hfiring Hpre Hget. unfold processAMReceiver. unfold_M. simpl.
  fold handleFiring. rewrite Hfiring, handleFiring_app.
  unfold result, world, trace in *.
  destruct (handleFiring pre w) as [[resp0 w0] t0]. simpl in Hpre, Hget.
  cbv beta iota. rewrite Hpre.
  by rewrite handleFiring_cons_eq, (handleAlert_abort alert w0 w1 err Hget).
Qed.

(** C3, as the code has it.  [processAMReceiver] goes through the firing
    alerts of the batch only: two batches with the same firing alerts get
    the same treatment; when the response is [ok], the templates looked up
    are those of the firing alerts, one each and in order; and every call
    of the OCM client has [isFiring] true and an empty text for the
    resolved state. *)
Theorem processAMReceiver_firing_only d (w : W) :
  Forall firing_send (trace (processAMReceiver d) w)
  /\ (resp_Error (result (processAMReceiver d) w) = None ->
      lookups (trace (processAMReceiver d) w)
      = (fun a => label a AMLabelTemplateName) <$> Firing (Alerts d))
  /\ (forall d', Firing (Alerts d') = Firing (Alerts d) ->
                 processAMReceiver d' w = processAMReceiver d w)
  /\ (Firing (Alerts d) = [] ->
      processAMReceiver d w = (ok_response, w, [EvLog Info "Process alert data"])).
Proof.
  unfold processAMReceiver, trace, result. unfold_M. simpl. fold handleFiring.
  pose proof (handleFiring_sends (Firing (Alerts d)) w) as Hsend.
  pose proof (handleFiring_lookups (Firing (Alerts d)) w) as Hlook.
  unfold trace, result in *.
  split; [|split; [|split]].
  - destruct (handleFiring (Firing (Alerts d)) w) as [[resp w1] t1]. by constructor.
  - destruct (handleFiring (Firing (Alerts d)) w) as [[resp w1] t1]. simpl in *.
    intros Hok. by rewrite <- (Hlook Hok).
  - by intros d' ->.
  - by intros ->.
Qed.

End Batch.

(** ** The HTTP entry point *)

Section Http.

Context {W : Type} `{!Client W, !OCMClient W, !Clock W}.
Variables AMLabelTemplateName AMLabelAlertMCID AMLabelAlertHCID : string.
Variable WebhookReceiverPath : string.
Variable isValidAlert : Alert -> bool -> bool.
Variable json_Decode : string -> error + Data.
Variable json_Encode : AMReceiverResponse -> error + string.

Local Abbreviation processAMReceiver :=
  (processAMReceiver AMLabelTemplateName AMLabelAlertMCID AMLabelAlertHCID isValidAlert).
Local Abbreviation ServeHTTP :=
  (ServeHTTP AMLabelTemplateName AMLabelAlertMCID AMLabelAlertHCID WebhookReceiverPath
     isValidAlert json_Decode json_Encode).


Lemma processAMReceiver_response d (w : W) :
  result (processAMReceiver d) w = ok_response
  \/ exists name err, result (processAMReceiver d) w = not_found_response name err.
Proof.
  pose proof (handleFiring_response AMLabelTemplateName AMLabelAlertMCID AMLabelAlertHCID
                isValidAlert (Firing (Alerts d)) w) as Hresp.
  unfold processAMReceiver, result in *. unfold_M. simpl.
  by destruct (handleFiring _ _ _ _ (Firing (Alerts d)) w) as [[resp w1] t1].
Qed.

(** C9. A request that is not a POST is answered 405 with the plain text
    [Method Not Allowed], and no collaborator is called.  A POST whose body
    cannot be decoded is answered 400 with the plain text
    [Bad request body]; the handler logs, marks the request metric, and
    calls neither the store nor the OCM client.  A POST that decodes is
    answered with the code of the response of [processAMReceiver], as
    JSON, the body being the encoding of that response; when the response
    has no error it is status [ok] with code 200. *)
Theorem ServeHTTP_responses r (w : W) :
  let run := ServeHTTP newResponseWriter (Some r) in
  (Method r <> MethodPost ->
   exists rw,
     run w = (Returned rw, w, [])
     /\ rw_Code rw = Some StatusMethodNotAllowed
     /\ ContentType rw = Some "text/plain; charset=utf-8"
     /\ rw_Body rw = "Method Not Allowed" ++ newline)
  /\ (forall err,
        Method r = MethodPost ->
        json_Decode (Body r) = inl err ->
        exists rw,
          run w = (Returned rw, w,
                   [EvLog Error "Failed to process request body";
                    EvSetRequestMetricFailure WebhookReceiverPath])
          /\ rw_Code rw = Some StatusBadRequest
          /\ ContentType rw = Some "text/plain; charset=utf-8"
          /\ rw_Body rw = "Bad request body" ++ newline)
  /\ (forall d text,
        Method r = MethodPost ->
        json_Decode (Body r) = inr d ->
        json_Encode (result (processAMReceiver d) w) = inr text ->
        exists rw,
          result run w = Returned rw
          /\ world run w = world (processAMReceiver d) w
          /\ rw_Code rw = Some (resp_Code (result (processAMReceiver d) w))
          /\ ContentType rw = Some "application/json"
          /\ rw_Body rw = text ++ newline
          /\ (resp_Error (result (processAMReceiver d) w) = None ->
              result (processAMReceiver d) w = ok_response
              /\ rw_Code rw = Some StatusOK)).
Proof.
  intros run. subst run. unfold ServeHTTP. split; [|split].
  - intros Hm. rewrite bool_decide_eq_true_2 by done.
    eexists; split; [done|]. by repeat split.
  - intros err Hm Hdec. rewrite bool_decide_eq_false_2 by (by intros ?).
    rewrite Hdec. unfold_M. simpl.
    eexists; split; [done|]. by repeat split.
  - intros d text Hm Hdec Henc. rewrite bool_decide_eq_false_2 by (by intros ?).
    rewrite Hdec. unfold result, world in *. unfold_M.
    pose proof (processAMReceiver_response d w) as Hresp. unfold result in Hresp.
    destruct (processAMReceiver d w) as [[resp w1] t1]. simpl in *.
    rewrite Henc. simpl.
    eexists; split; [done|]. split; [done|]. split; [done|]. split; [done|].
    split; [done|]. intros Hok.
    destruct Hresp as [->|(name & e & ->)]; done.
Qed.

End Http.

(** ** More on the record library *)

Section RecordFrames.

Lemma item_of_None_GetNotificationRecordItem m name hcID e :
  GetNotificationRecordItem m (ManagementCluster (mfnr_Status m)) name hcID = inl e ->
  item_of m name hcID = None.
Proof.
  intros He. destruct (item_of m name hcID) as [it|] eqn:Hit; [|done].
  apply GetNotificationRecordItem_item_of in Hit. congruence.
Qed.

(** The resend test, read off the entry and the item. *)
Lemma can_send_eq m mcID name hcID now :
  can_send m mcID name hcID now =
  bool_decide (ManagementCluster (mfnr_Status m) = mcID)
  && match entry_wait m name with
     | None => false
     | Some wait =>
         match item_of m name hcID with
         | None => false
         | Some it =>
             match LastTransitionTime it with
             | None => true
             | Some last => bool_decide (resendWaitDuration wait <= now - last)%Z
             end
         end
     end.
Proof.
  unfold can_send, CanBeSent, GetNotificationRecordItem, GetNotificationRecordByName,
    entry_wait, item_of.
  case_bool_decide; simpl; [|done].
  destruct (find_index (named name) (Status_RecordByName (mfnr_Status m))) as [i|]; [|done].
  destruct (Status_RecordByName (mfnr_Status m) !! i) as [r|]; simpl; [|done].
  destruct (find_index (hosted hcID) (NotificationRecordItems r)) as [j|]; [|done].
  destruct (NotificationRecordItems r !! j) as [it|]; [|done].
  destruct (LastTransitionTime it); [|done]. by case_bool_decide.
Qed.

Lemma entry_wait_alter m i hcID n :
  entry_wait (with_records m (alter (add_item hcID) i (Status_RecordByName (mfnr_Status m)))) n
  = entry_wait m n.
Proof.
  unfold entry_wait; simpl. rewrite find_index_alter by done.
  destruct (find_index (named n) (Status_RecordByName (mfnr_Status m))) as [k|]; [|done].
  destruct (decide (k = i)) as [->|Hne].
  - rewrite list_lookup_alter_eq. by destruct (_ !! i).
  - by rewrite list_lookup_alter_ne.
Qed.

(** A successful update keeps the management cluster and every resend
    wait. *)
Lemma UpdateNotificationRecordItem_frame m name hcID now it :
  item_of m name hcID = Some it ->
  ManagementCluster (mfnr_Status (UpdateNotificationRecordItem m name hcID now).1.1)
  = ManagementCluster (mfnr_Status m)
  /\ forall n,
       entry_wait (UpdateNotificationRecordItem m name hcID now).1.1 n = entry_wait m n.
Proof.
  unfold item_of, UpdateNotificationRecordItem, entry_wait. intros Hit.
  destruct (find_index (named name) (Status_RecordByName (mfnr_Status m))) as [i|] eqn:Hi;
    [|done].
  destruct (Status_RecordByName (mfnr_Status m) !! i) as [r|] eqn:Hr; [|done].
  destruct (find_index (hosted hcID) (NotificationRecordItems r)) as [j|] eqn:Hj; [|done].
  rewrite Hit. simpl. split; [done|]. intros n.
  rewrite (find_index_insert _ r) by done.
  destruct (find_index (named n) (Status_RecordByName (mfnr_Status m))) as [k|]; [|done].
  destruct (decide (k = i)) as [->|Hne].
  - rewrite list_lookup_insert_eq by (by eapply lookup_lt_Some). by rewrite Hr.
  - by rewrite list_lookup_insert_ne.
Qed.

End RecordFrames.

Section LocateFrames.

Variables (fn : FleetNotification) (mcID hcID : string).

Lemma locate_frame m :
  ManagementCluster (mfnr_Status (mfnr (locate fn mcID hcID m).1))
  = ManagementCluster (mfnr_Status m)
  /\ (forall i, GetNotificationRecordByName m mcID (fn_Name fn) = inr i ->
                forall n, entry_wait (mfnr (locate fn mcID hcID m).1) n = entry_wait m n).
Proof.
  unfold locate.
  destruct (GetNotificationRecordByName m mcID (fn_Name fn)) as [e|i] eqn:Hi; simpl.
  - split; [|done].
    by destruct (GetNotificationRecordItem _ mcID (fn_Name fn) hcID).
  - destruct (GetNotificationRecordItem m mcID (fn_Name fn) hcID); simpl.
    + split; [done|]. intros ? _ n. apply entry_wait_alter.
    + by split.
Qed.

(** The resend test on the located record, read off the fetched one. *)
Lemma can_send_locate m now :
  ManagementCluster (mfnr_Status m) <> EmptyString ->
  can_send (mfnr (locate fn mcID hcID m).1) mcID (fn_Name fn) hcID now
  = sendable m mcID (fn_Name fn) hcID now.
Proof.
  intros Hst. unfold sendable.
  destruct (GetNotificationRecordByName m mcID (fn_Name fn)) as [e|i] eqn:Hi.
  - destruct (locate_no_entry fn mcID hcID m e Hi) as (h & Hh & Hcan & _).
    rewrite Hh. simpl. unfold can_send. destruct (Hcan now) as [e' ->].
    unfold GetNotificationRecordByName in Hi. unfold entry_wait.
    case_bool_decide; simpl; [|done].
    destruct (find_index _ _); [done|]. by rewrite andb_false_r.
  - pose proof (locate_frame m) as [Hmc Hwait]. specialize (Hwait i Hi).
    destruct (locate_entry fn mcID hcID m i Hi) as (h & Hh & Hitems).
    rewrite Hh in *. simpl in *.
    rewrite can_send_eq, Hmc, Hwait, Hitems.
    unfold GetNotificationRecordByName in Hi.
    case_bool_decide as Hm; [|done]. simpl.
    rewrite (bool_decide_eq_true_2 (mcID <> EmptyString)) by (intros Heq; apply Hst; congruence).
    simpl.
    destruct (entry_wait m (fn_Name fn)) as [wait|]; [|done].
    unfold lastSent.
    destruct (item_of m (fn_Name fn) hcID) as [it|]; simpl; [done|].
    by rewrite bool_decide_eq_true_2.
Qed.

End LocateFrames.

(** ** More on the executions of [processAlert] *)

Section MoreExecutions.

Context {W : Type} `{!Client W, !OCMClient W, !Clock W}.
Variables AMLabelAlertMCID AMLabelAlertHCID : string.

Local Abbreviation processAlert_mem := (processAlert_mem AMLabelAlertMCID AMLabelAlertHCID).
Local Abbreviation processAlert := (processAlert AMLabelAlertMCID AMLabelAlertHCID).

(** Without a record with status, the status is written at most once and
    what is written has no entry. *)
Lemma processAlert_mem_fresh_writes alert mfn (w : W) :
  let mcID := label alert AMLabelAlertMCID in
  (forall m w1, client_GetRecord OCMAgentNamespaceName mcID w = (inr m, w1) ->
                ManagementCluster (mfnr_Status m) = EmptyString) ->
  fresh_writes (trace (processAlert_mem alert mfn) w).
Proof.
  intros mcID Hempty.
  set (fn := mfn_FleetNotification mfn). set (hcID := label alert AMLabelAlertHCID).
  destruct (client_GetRecord OCMAgentNamespaceName mcID w) as [[e|m] w1] eqn:Hget.
  2:{ pose proof (Hempty m w1 eq_refl) as Hst.
      unfold trace, processAlert_mem, fetchOrCreate, ensureStatus.
      fold mcID hcID fn. unfold_M. rewrite Hget. simpl.
      rewrite bool_decide_eq_true_2 by done. simpl.
      set (m1 := with_status m _).
      destruct (client_StatusUpdate m1 w1) as [[e|] w2] eqn:Hup; simpl.
      - fresh_writes_tac.
      - destruct (locate_fresh fn mcID hcID m1 eq_refl) as (h & Hh & Hcan & Hblank).
        rewrite Hh. simpl.
        destruct (Hcan (time_Now w2)) as [e He].
        rewrite (sendAndPersist_error mfn mcID hcID (mfnr h) w2 e He). simpl.
        fresh_writes_tac. }
  unfold trace, processAlert_mem, fetchOrCreate, createManagedFleetNotificationRecord,
    ensureStatus.
  fold mcID hcID fn. unfold_M. rewrite Hget. simpl.
  destruct (IsNotFound e); simpl; [|fresh_writes_tac].
  set (m0 := {| ObjectMeta_Name := mcID |}).
  destruct (client_Create m0 w1) as [[e'|] w2] eqn:Hcreate; simpl; [fresh_writes_tac|].
  case_bool_decide as Hmc; simpl.
  - set (m1 := with_status m0 _).
    destruct (client_StatusUpdate m1 w2) as [[e'|] w3] eqn:Hup; simpl; [fresh_writes_tac|].
    destruct (locate_fresh fn mcID hcID m1 eq_refl) as (h & Hh & Hcan & Hblank).
    rewrite Hh. simpl.
    destruct (Hcan (time_Now w3)) as [e' He].
    rewrite (sendAndPersist_error mfn mcID hcID (mfnr h) w3 e' He). simpl.
    fresh_writes_tac.
  - destruct (locate_fresh fn mcID hcID m0 eq_refl) as (h & Hh & Hcan & Hblank).
    rewrite Hh. simpl.
    destruct (Hcan (time_Now w2)) as [e' He].
    rewrite (sendAndPersist_error mfn mcID hcID (mfnr h) w2 e' He). simpl.
    fresh_writes_tac.
Qed.

(** Counts that hold on every path, whatever the record library does. *)
Lemma processAlert_counts alert mfn (w : W) :
  let tr := trace (processAlert alert mfn) w in
  count_of is_get_record tr = 1%nat
  /\ (count_of is_create tr <= 1)%nat
  /\ (count_of is_send tr <= 1)%nat
  /\ count_of is_count tr = count_of is_sent tr
  /\ count_of is_response_reset tr = count_of is_sent tr
  /\ count_of is_response_failure tr = count_of is_send_failed tr
  /\ (count_of is_status_update tr <= 2)%nat.
Proof.
  intros tr. subst tr. rewrite trace_processAlert. unfold trace.
  unfold processAlert_mem, fetchOrCreate, createManagedFleetNotificationRecord,
    ensureStatus, sendAndPersist.
  unfold_M.
  repeat (simpl in *; case_match; simplify_eq); unfold count_of; simpl;
    repeat split; (done || lia || auto).
Qed.

End MoreExecutions.

Section Sending.

Context {W : Type} `{!Client W, !OCMClient W, !Clock W}.
Variables AMLabelAlertMCID AMLabelAlertHCID : string.

Local Abbreviation processAlert_mem := (processAlert_mem AMLabelAlertMCID AMLabelAlertHCID).
Local Abbreviation processAlert := (processAlert AMLabelAlertMCID AMLabelAlertHCID).

(** The last stretch sends exactly when the resend test says yes. *)
Lemma sendAndPersist_send_count mfn mcID hcID m (w : W) :
  count_of is_send (sendAndPersist mfn mcID hcID m w).2
  = if can_send m mcID (fn_Name (mfn_FleetNotification mfn)) hcID (time_Now w)
    then 1%nat else 0%nat.
Proof.
  set (fn := mfn_FleetNotification mfn). unfold can_send.
  destruct (CanBeSent m mcID (fn_Name fn) hcID (time_Now w)) as [e|[|]] eqn:Hcan.
  - by rewrite (sendAndPersist_error mfn mcID hcID m w e Hcan).
  - destruct (ocm_SendServiceLog (fn_Summary fn) (fn_NotificationMessage fn) EmptyString hcID
                (fn_Severity fn) (fn_LogType fn) (fn_References fn) true w)
      as [[e'|] w1] eqn:Hsend.
    + by rewrite (sendAndPersist_send_failed mfn mcID hcID m w w1 e' Hcan Hsend).
    + destruct (sendAndPersist_sent mfn mcID hcID m w w1 Hcan Hsend)
        as (it & m' & _ & _ & ->).
      by destruct (client_StatusUpdate m' w1) as [[?|] ?].
  - by rewrite (sendAndPersist_not_due mfn mcID hcID m w Hcan).
Qed.

Lemma processAlert_mem_send_count alert mfn (w : W) :
  let fn := mfn_FleetNotification mfn in
  let mcID := label alert AMLabelAlertMCID in
  let hcID := label alert AMLabelAlertHCID in
  count_of is_send (trace (processAlert_mem alert mfn) w)
  = match client_GetRecord OCMAgentNamespaceName mcID w with
    | (inr m, w1) =>
        if sendable m mcID (fn_Name fn) hcID (time_Now w1) then 1%nat else 0%nat
    | (inl _, _) => 0%nat
    end.
Proof.
  intros fn mcID hcID.
  destruct (processAlert_mem_cases AMLabelAlertMCID AMLabelAlertHCID alert mfn w)
    as [(m & w1 & Hget & Hst)|[Hempty Hfresh]].
  - pose proof (processAlert_mem_fetched AMLabelAlertMCID AMLabelAlertHCID
                  alert mfn w w1 m Hget Hst) as Hrun.
    simpl in Hrun. fold fn mcID hcID in Hrun, Hget. unfold trace. rewrite Hrun, Hget.
    pose proof (sendAndPersist_send_count mfn mcID hcID
                  (mfnr (locate fn mcID hcID m).1) w1) as Hc.
    fold fn in Hc. rewrite (can_send_locate fn mcID hcID m (time_Now w1) Hst) in Hc.
    rewrite <- Hc.
    by destruct (sendAndPersist mfn mcID hcID _ w1) as [[r w2] t].
  - destruct Hfresh as (_ & -> & _). fold mcID in Hempty.
    destruct (client_GetRecord OCMAgentNamespaceName mcID w) as [[e|m] w1] eqn:Hget; [done|].
    unfold sendable. rewrite (Hempty m w1 eq_refl).
    case_bool_decide as Hmc; [|done]. subst mcID. rewrite <- Hmc.
    by rewrite bool_decide_eq_false_2 by (by intros ?).
Qed.

(** X1. [processAlert] calls the OCM client once when the store returns a
    record that has its status, for the management cluster of the alert,
    with an entry for the template, the hosted cluster being without item,
    never notified, or notified at least the resend wait ago; in every other
    case it does not call it. *)
Theorem processAlert_sends_exactly_when alert mfn (w : W) :
  let fn := mfn_FleetNotification mfn in
  let mcID := label alert AMLabelAlertMCID in
  let hcID := label alert AMLabelAlertHCID in
  count_of is_send (trace (processAlert alert mfn) w)
  = match client_GetRecord OCMAgentNamespaceName mcID w with
    | (inr m, w1) =>
        if sendable m mcID (fn_Name fn) hcID (time_Now w1) then 1%nat else 0%nat
    | (inl _, _) => 0%nat
    end.
Proof.
  intros fn mcID hcID. rewrite trace_processAlert.
  apply processAlert_mem_send_count.
Qed.

(** From a sendable record to the entry and the wait. *)
Lemma sendable_entry m mcID name hcID now :
  sendable m mcID name hcID now = true ->
  ManagementCluster (mfnr_Status m) = mcID
  /\ mcID <> EmptyString
  /\ (exists i, GetNotificationRecordByName m mcID name = inr i)
  /\ exists wait, entry_wait m name = Some wait.
Proof.
  unfold sendable, entry_wait, GetNotificationRecordByName.
  intros Hs. apply andb_prop in Hs as [Hs Hw]. apply andb_prop in Hs as [Hm Hne].
  apply bool_decide_eq_true_1 in Hm, Hne. rewrite bool_decide_eq_true_2 by done.
  destruct (find_index _ _) as [i|]; [|done].
  destruct (ResendWait <$> _) as [wait|] eqn:Hwait; [|done].
  repeat split; try done; by eexists.
Qed.

(** The execution that sends: the record, located, is stamped and
    written. *)
Lemma processAlert_mem_sent alert mfn (w w1 w2 : W) m :
  let fn := mfn_FleetNotification mfn in
  let mcID := label alert AMLabelAlertMCID in
  let hcID := label alert AMLabelAlertHCID in
  client_GetRecord OCMAgentNamespaceName mcID w = (inr m, w1) ->
  sendable m mcID (fn_Name fn) hcID (time_Now w1) = true ->
  ocm_SendServiceLog (fn_Summary fn) (fn_NotificationMessage fn) EmptyString hcID
    (fn_Severity fn) (fn_LogType fn) (fn_References fn) true w1 = (None, w2) ->
  exists m',
    processAlert_mem alert mfn w =
    (let '(res, w3) := client_StatusUpdate m' w2 in
     ((res, Some m'), w3,
      [EvGetRecord OCMAgentNamespaceName mcID (inr m);
       EvLog Info "will send servicelog for notification";
       EvSendServiceLog (fn_Summary fn) (fn_NotificationMessage fn) EmptyString hcID
         (fn_Severity fn) (fn_LogType fn) (fn_References fn) true None;
       EvResetMetric MetricResponseFailure;
       EvCountServiceLogSent (fn_Name fn) "firing";
       EvStatusUpdate m' res]
      ++ match res with
         | Some _ => [EvLog Error "unable to update notification status on cluster"]
         | None => []
         end)%list)
    /\ sentCount m' (fn_Name fn) hcID = (sentCount m (fn_Name fn) hcID + 1)%Z
    /\ lastSent m' (fn_Name fn) hcID = Some (time_Now w2)
    /\ (forall n h, ~ (n = fn_Name fn /\ h = hcID) -> item_of m' n h = item_of m n h)
    /\ ManagementCluster (mfnr_Status m') = ManagementCluster (mfnr_Status m)
    /\ (forall n, entry_wait m' n = entry_wait m n).
Proof.
  intros fn mcID hcID Hget Hs Hsend.
  destruct (sendable_entry _ _ _ _ _ Hs) as (Hmc & Hne & [i Hi] & _).
  assert (Hst : ManagementCluster (mfnr_Status m) <> EmptyString) by congruence.
  pose proof (processAlert_mem_fetched AMLabelAlertMCID AMLabelAlertHCID
                alert mfn w w1 m Hget Hst) as Hrun.
  simpl in Hrun. fold fn mcID hcID in Hrun.
  rewrite <- (can_send_locate fn mcID hcID m (time_Now w1) Hst) in Hs.
  pose proof (locate_frame fn mcID hcID m) as [Hmcl Hwait]. specialize (Hwait i Hi).
  destruct (locate_entry fn mcID hcID m i Hi) as (h & Hh & Hitems).
  rewrite Hh in *. simpl in *.
  unfold can_send in Hs.
  destruct (CanBeSent (mfnr h) mcID (fn_Name fn) hcID (time_Now w1)) as [?|[|]] eqn:Hcan;
    try done.
  destruct (CanBeSent_inr _ _ _ _ _ _ Hcan) as [it Hit].
  apply item_of_GetNotificationRecordItem in Hit as [_ Hit].
  destruct (UpdateNotificationRecordItem_found (mfnr h) (fn_Name fn) hcID (time_Now w2) it Hit)
    as (m' & Hup & Hitems').
  pose proof (UpdateNotificationRecordItem_frame (mfnr h) (fn_Name fn) hcID (time_Now w2)
                it Hit) as [Hmcu Hwaitu].
  rewrite Hup in Hmcu, Hwaitu. simpl in Hmcu, Hwaitu.
  exists m'. split; [|split; [|split; [|split; [|split]]]].
  - rewrite Hrun. unfold sendAndPersist. fold fn. unfold_M. simpl.
    rewrite Hcan. simpl. rewrite Hsend. simpl. rewrite Hup. simpl.
    by destruct (client_StatusUpdate m' w2) as [[e|] w3].
  - unfold sentCount. rewrite Hitems', bool_decide_eq_true_2 by done. simpl.
    rewrite Hitems in Hit. destruct (item_of m (fn_Name fn) hcID) as [it0|]; simpl.
    + by injection Hit as ->.
    + rewrite bool_decide_eq_true_2 in Hit by done. by injection Hit as <-.
  - unfold lastSent. by rewrite Hitems', bool_decide_eq_true_2.
  - intros n hc Hne'. rewrite Hitems', bool_decide_eq_false_2 by done.
    rewrite Hitems. destruct (item_of m n hc); [done|].
    by rewrite bool_decide_eq_false_2.
  - congruence.
  - intros n. by rewrite Hwaitu, Hwait.
Qed.

(** X2. The store returns a sendable record and the OCM client accepts the
    notification: [processAlert] makes exactly these calls, in this order:
    the fetch, the send, the write of the status; it returns what the write
    returns.  The record written has the counter of the hosted cluster one
    up (from 0 when it had no item), its time of last send at the clock read
    after the send, and every other item as fetched. *)
Theorem processAlert_sends_and_records alert mfn (w w1 w2 : W) m :
  let fn := mfn_FleetNotification mfn in
  let mcID := label alert AMLabelAlertMCID in
  let hcID := label alert AMLabelAlertHCID in
  client_GetRecord OCMAgentNamespaceName mcID w = (inr m, w1) ->
  sendable m mcID (fn_Name fn) hcID (time_Now w1) = true ->
  ocm_SendServiceLog (fn_Summary fn) (fn_NotificationMessage fn) EmptyString hcID
    (fn_Severity fn) (fn_LogType fn) (fn_References fn) true w1 = (None, w2) ->
  exists m',
    List.filter is_call (trace (processAlert alert mfn) w)
    = [EvGetRecord OCMAgentNamespaceName mcID (inr m);
       EvSendServiceLog (fn_Summary fn) (fn_NotificationMessage fn) EmptyString hcID
         (fn_Severity fn) (fn_LogType fn) (fn_References fn) true None;
       EvStatusUpdate m' (client_StatusUpdate m' w2).1]
    /\ result (processAlert alert mfn) w = (client_StatusUpdate m' w2).1
    /\ world (processAlert alert mfn) w = (client_StatusUpdate m' w2).2
    /\ sentCount m' (fn_Name fn) hcID = (sentCount m (fn_Name fn) hcID + 1)%Z
    /\ lastSent m' (fn_Name fn) hcID = Some (time_Now w2)
    /\ (forall n h, ~ (n = fn_Name fn /\ h = hcID) -> item_of m' n h = item_of m n h).
Proof.
  intros fn mcID hcID Hget Hs Hsend.
  destruct (processAlert_mem_sent alert mfn w w1 w2 m Hget Hs Hsend)
    as (m' & Hrun & Hcount & Hlast & Hothers & _).
  exists m'. fold fn mcID hcID in Hrun.
  unfold trace, result, world. rewrite processAlert_eq, Hrun.
  destruct (client_StatusUpdate m' w2) as [[e|] w3]; simpl; by repeat split.
Qed.

(** X3. After an execution that sent, a later one for the same alert that
    finds the record the first one wrote calls the OCM client again exactly
    when the clock has moved on by the resend wait of the entry since the
    first send; before that it is silent. *)
Theorem processAlert_no_resend_within_window alert mfn (w w1 w2 : W) m :
  let fn := mfn_FleetNotification mfn in
  let mcID := label alert AMLabelAlertMCID in
  let hcID := label alert AMLabelAlertHCID in
  client_GetRecord OCMAgentNamespaceName mcID w = (inr m, w1) ->
  sendable m mcID (fn_Name fn) hcID (time_Now w1) = true ->
  ocm_SendServiceLog (fn_Summary fn) (fn_NotificationMessage fn) EmptyString hcID
    (fn_Severity fn) (fn_LogType fn) (fn_References fn) true w1 = (None, w2) ->
  exists m' wait,
    In (EvStatusUpdate m' (client_StatusUpdate m' w2).1) (trace (processAlert alert mfn) w)
    /\ entry_wait m (fn_Name fn) = Some wait
    /\ forall w' w1',
         client_GetRecord OCMAgentNamespaceName mcID w' = (inr m', w1') ->
         count_of is_send (trace (processAlert alert mfn) w')
         = if bool_decide (resendWaitDuration wait <= time_Now w1' - time_Now w2)%Z
           then 1%nat else 0%nat.
Proof.
  intros fn mcID hcID Hget Hs Hsend.
  destruct (processAlert_mem_sent alert mfn w w1 w2 m Hget Hs Hsend)
    as (m' & Hrun & _ & Hlast & _ & Hmc & Hwait).
  destruct (sendable_entry _ _ _ _ _ Hs) as (Hmcm & Hne & _ & [wait Hw]).
  exists m', wait. fold fn mcID hcID in Hrun. split; [|split; [done|]].
  - unfold trace. rewrite processAlert_eq, Hrun.
    destruct (client_StatusUpdate m' w2) as [[e|] w3]; simpl; tauto.
  - intros w' w1' Hget'. rewrite trace_processAlert, processAlert_mem_send_count.
    subst fn mcID hcID. rewrite Hget'. unfold sendable.
    rewrite Hmc, Hwait, Hw, Hlast.
    by rewrite !bool_decide_eq_true_2 by done.
Qed.

(** X4. The store returns a record with status in which the template has
    no entry (or which belongs to another management cluster):
    [processAlert] returns an error after the fetch and one log line; it
    sends nothing and writes nothing, so the next alert finds the record as
    it was. *)
Theorem processAlert_missing_entry alert mfn (w w1 : W) m e :
  let fn := mfn_FleetNotification mfn in
  let mcID := label alert AMLabelAlertMCID in
  client_GetRecord OCMAgentNamespaceName mcID w = (inr m, w1) ->
  ManagementCluster (mfnr_Status m) <> EmptyString ->
  GetNotificationRecordByName m mcID (fn_Name fn) = inl e ->
  exists e',
    processAlert alert mfn w =
    (Some e', w1,
     [EvGetRecord OCMAgentNamespaceName mcID (inr m);
      EvLog Error "unable to fetch NotificationrecordByName or NotificationRecordItem"]).
Proof.
  intros fn mcID Hget Hst He.
  set (hcID := label alert AMLabelAlertHCID).
  pose proof (processAlert_mem_fetched AMLabelAlertMCID AMLabelAlertHCID
                alert mfn w w1 m Hget Hst) as Hrun.
  simpl in Hrun. fold fn mcID hcID in Hrun.
  destruct (locate_no_entry fn mcID hcID m e He) as (h & Hh & Hcan & _).
  rewrite Hh in Hrun. simpl in Hrun. destruct (Hcan (time_Now w1)) as [e' He'].
  rewrite (sendAndPersist_error mfn mcID hcID (mfnr h) w1 e' He') in Hrun.
  exists e'. by rewrite processAlert_eq, Hrun.
Qed.

(** X12. [processAlert] returns nil only when the store returned a record
    that has its status, for the management cluster of the alert, with an
    entry for the template: for a cluster or a template that is not on
    record yet, every execution ends in an error. *)
Theorem processAlert_nil_needs_entry alert mfn (w : W) :
  let fn := mfn_FleetNotification mfn in
  let mcID := label alert AMLabelAlertMCID in
  result (processAlert alert mfn) w = None ->
  exists m w1 wait,
    client_GetRecord OCMAgentNamespaceName mcID w = (inr m, w1)
    /\ ManagementCluster (mfnr_Status m) = mcID
    /\ mcID <> EmptyString
    /\ entry_wait m (fn_Name fn) = Some wait.
Proof.
  intros fn mcID Hnil.
  destruct (processAlert_mem_cases AMLabelAlertMCID AMLabelAlertHCID alert mfn w)
    as [(m & w1 & Hget & Hst)|[_ Hfresh]].
  2:{ destruct Hfresh as (Herr & _). by rewrite result_processAlert in Hnil. }
  fold mcID in Hget.
  destruct (GetNotificationRecordByName m mcID (fn_Name fn)) as [e|i] eqn:Hi.
  - set (hcID := label alert AMLabelAlertHCID).
    pose proof (processAlert_mem_fetched AMLabelAlertMCID AMLabelAlertHCID
                  alert mfn w w1 m Hget Hst) as Hrun.
    simpl in Hrun. fold fn mcID hcID in Hrun.
    destruct (locate_no_entry fn mcID hcID m e Hi) as (h & Hh & Hcan & _).
    rewrite Hh in Hrun. simpl in Hrun. destruct (Hcan (time_Now w1)) as [e' He'].
    rewrite (sendAndPersist_error mfn mcID hcID (mfnr h) w1 e' He') in Hrun.
    rewrite result_processAlert in Hnil. unfold result in Hnil. by rewrite Hrun in Hnil.
  - unfold GetNotificationRecordByName in Hi. case_bool_decide as Hmc; [|done].
    destruct (find_index (named (fn_Name fn)) (Status_RecordByName (mfnr_Status m)))
      as [k|] eqn:Hk; [|done].
    destruct (find_index_lookup _ _ _ Hk) as (r & Hr & _).
    exists m, w1, (ResendWait r). split; [done|]. split; [done|].
    split; [congruence|]. unfold entry_wait. by rewrite Hk, Hr.
Qed.

(** X13. The fetch fails with an error other than not-found: [processAlert]
    logs it and returns a new error that names the management cluster; it
    does not try to create the record and makes no other call. *)
Theorem processAlert_fetch_error alert mfn (w w1 : W) e :
  let mcID := label alert AMLabelAlertMCID in
  client_GetRecord OCMAgentNamespaceName mcID w = (inl e, w1) ->
  IsNotFound e = false ->
  processAlert alert mfn w =
  (Some (Errorf ("unable to fetch managedFleetNotificationRecord for " ++ mcID)), w1,
   [EvGetRecord OCMAgentNamespaceName mcID (inl e);
    EvLog Error "unable to fetch managedFleetNotificationRecord"]).
Proof.
  intros mcID Hget Hnf. rewrite processAlert_eq.
  unfold processAlert_mem, fetchOrCreate. fold mcID. unfold_M.
  by rewrite Hget; simpl; rewrite Hnf.
Qed.

(** The first event of a computation is that of its first step. *)
Lemma head_bind {A B} (m : M W A) (f : A -> M W B) (w : W) e :
  head (m w).2 = Some e -> head ((m ≫= f) w).2 = Some e.
Proof.
  unfold mbind, M_bind. destruct (m w) as [[a w1] t1]. simpl.
  destruct (f a w1) as [[b w2] t2]. simpl. by destruct t1.
Qed.

(** The calls of an execution that starts from a record with status. *)
Lemma processAlert_mem_fetched_calls alert mfn (w w1 : W) m :
  let fn := mfn_FleetNotification mfn in
  let mcID := label alert AMLabelAlertMCID in
  let hcID := label alert AMLabelAlertHCID in
  client_GetRecord OCMAgentNamespaceName mcID w = (inr m, w1) ->
  ManagementCluster (mfnr_Status m) <> EmptyString ->
  let tr := trace (processAlert_mem alert mfn) w in
  count_of is_create tr = 0%nat
  /\ (count_of is_status_update tr <= count_of is_send tr)%nat
  /\ forall obj res,
       In (EvCreate obj res) tr \/ In (EvStatusUpdate obj res) tr ->
       sendable m mcID (fn_Name fn) hcID (time_Now w1) = true
       /\ ManagementCluster (mfnr_Status obj) = ManagementCluster (mfnr_Status m)
       /\ forall n, entry_wait obj n = entry_wait m n.
Proof.
  intros fn mcID hcID Hget Hst tr. subst tr.
  pose proof (processAlert_mem_fetched AMLabelAlertMCID AMLabelAlertHCID
                alert mfn w w1 m Hget Hst) as Hrun.
  simpl in Hrun. fold fn mcID hcID in Hrun.
  pose proof (can_send_locate fn mcID hcID m (time_Now w1) Hst) as Hcs.
  unfold can_send in Hcs.
  destruct (CanBeSent (mfnr (locate fn mcID hcID m).1) mcID (fn_Name fn) hcID (time_Now w1))
    as [e|[|]] eqn:Hcan.
  - unfold trace. rewrite Hrun, (sendAndPersist_error mfn mcID hcID _ w1 e Hcan). simpl.
    split; [done|]. split; [unfold count_of; simpl; lia|].
    intros ? ? [Hin|Hin]; in_trace Hin.
  - destruct (ocm_SendServiceLog (fn_Summary fn) (fn_NotificationMessage fn) EmptyString hcID
                (fn_Severity fn) (fn_LogType fn) (fn_References fn) true w1)
      as [[e'|] w2] eqn:Hsend.
    + unfold trace.
      rewrite Hrun, (sendAndPersist_send_failed mfn mcID hcID _ w1 w2 e' Hcan Hsend). simpl.
      split; [done|]. split; [unfold count_of; simpl; lia|].
      intros ? ? [Hin|Hin]; in_trace Hin.
    + symmetry in Hcs.
      destruct (processAlert_mem_sent alert mfn w w1 w2 m Hget Hcs Hsend)
        as (m' & Hrun' & _ & _ & _ & Hmc & Hwait).
      fold fn mcID hcID in Hrun'. unfold trace. rewrite Hrun'.
      destruct (client_StatusUpdate m' w2) as [[e'|] w3]; simpl.
      all: split; [done|]; split; [unfold count_of; simpl; lia|].
      all: intros ? ? [Hin|Hin]; in_trace Hin.
  - unfold trace. rewrite Hrun, (sendAndPersist_not_due mfn mcID hcID _ w1 Hcan). simpl.
    split; [done|]. split; [unfold count_of; simpl; lia|].
    intros ? ? [Hin|Hin]; in_trace Hin.
Qed.

(** X5. Whatever [processAlert] hands to the store, in a creation or in a
    write of the status, has no entry that the fetched record did not have,
    and every entry keeps its resend wait: the handler never stores an
    entry for a new template, and the resend wait of [FleetNotification]
    never reaches a stored record. *)
Theorem processAlert_writes_keep_entries alert mfn (w : W) obj res n wait :
  let mcID := label alert AMLabelAlertMCID in
  In (EvCreate obj res) (trace (processAlert alert mfn) w)
  \/ In (EvStatusUpdate obj res) (trace (processAlert alert mfn) w) ->
  entry_wait obj n = Some wait ->
  exists m w1,
    client_GetRecord OCMAgentNamespaceName mcID w = (inr m, w1)
    /\ entry_wait m n = Some wait.
Proof.
  intros mcID. rewrite trace_processAlert. intros Hin Hwait.
  destruct (processAlert_mem_cases AMLabelAlertMCID AMLabelAlertHCID alert mfn w)
    as [(m & w1 & Hget & Hst)|[Hempty _]].
  - exists m, w1. split; [done|].
    destruct (processAlert_mem_fetched_calls alert mfn w w1 m Hget Hst) as (_ & _ & Hw).
    destruct (Hw obj res Hin) as (_ & _ & Hsame). by rewrite <- Hsame.
  - destruct (processAlert_mem_fresh_writes AMLabelAlertMCID AMLabelAlertHCID
                alert mfn w Hempty) as [_ Hnil].
    unfold entry_wait in Hwait. by rewrite (Hnil obj res Hin) in Hwait.
Qed.

(** X6. In every execution [processAlert] fetches the record once, first;
    it creates at most one record, calls the OCM client at most once and
    writes the status at most once; it never creates and sends in the same
    execution, and it looks up no template. *)
Theorem processAlert_call_bounds alert mfn (w : W) :
  let mcID := label alert AMLabelAlertMCID in
  let tr := trace (processAlert alert mfn) w in
  head tr = Some (EvGetRecord OCMAgentNamespaceName mcID
                    (client_GetRecord OCMAgentNamespaceName mcID w).1)
  /\ count_of is_get_record tr = 1%nat
  /\ (count_of is_create tr + count_of is_send tr <= 1)%nat
  /\ (count_of is_status_update tr <= 1)%nat
  /\ lookups tr = [].
Proof.
  intros mcID tr.
  pose proof (processAlert_counts AMLabelAlertMCID AMLabelAlertHCID alert mfn w)
    as (Hget1 & Hcreate & Hsend & _).
  pose proof (processAlert_firing_send AMLabelAlertMCID AMLabelAlertHCID alert mfn w)
    as [_ Hlook].
  fold tr in Hget1, Hcreate, Hsend, Hlook.
  assert (Hhead : head tr = Some (EvGetRecord OCMAgentNamespaceName mcID
                                    (client_GetRecord OCMAgentNamespaceName mcID w).1)).
  { subst tr. rewrite trace_processAlert. unfold trace, processAlert_mem.
    fold mcID. eapply head_bind. unfold fetchOrCreate. eapply head_bind.
    unfold Get_record. by destruct (client_GetRecord OCMAgentNamespaceName mcID w). }
  split; [done|]. split; [done|].
  subst tr. rewrite trace_processAlert in *.
  destruct (processAlert_mem_cases AMLabelAlertMCID AMLabelAlertHCID alert mfn w)
    as [(m & w1 & Hget & Hst)|[Hempty Hfresh]].
  - destruct (processAlert_mem_fetched_calls alert mfn w w1 m Hget Hst) as (Hc & Hu & _).
    repeat split; [lia|lia|done].
  - destruct Hfresh as (_ & Hs & _).
    destruct (processAlert_mem_fresh_writes AMLabelAlertMCID AMLabelAlertHCID
                alert mfn w Hempty) as [Hu _].
    repeat split; [lia|lia|done].
Qed.

End Sending.

(** ** More on the batch *)

Section MoreBatch.

Context {W : Type} `{!Client W, !OCMClient W, !Clock W}.
Variables AMLabelTemplateName AMLabelAlertMCID AMLabelAlertHCID : string.
Variable isValidAlert : Alert -> bool -> bool.

Local Abbreviation processAlert := (processAlert AMLabelAlertMCID AMLabelAlertHCID).
Local Abbreviation handleAlert :=
  (handleAlert AMLabelTemplateName AMLabelAlertMCID AMLabelAlertHCID isValidAlert).
Local Abbreviation handleFiring :=
  (handleFiring AMLabelTemplateName AMLabelAlertMCID AMLabelAlertHCID isValidAlert).
Local Abbreviation processAMReceiver :=
  (processAMReceiver AMLabelTemplateName AMLabelAlertMCID AMLabelAlertHCID isValidAlert).

Lemma count_of_app (p : Event -> bool) (l1 l2 : list Event) :
  count_of p (l1 ++ l2) = (count_of p l1 + count_of p l2)%nat.
Proof. unfold count_of. by rewrite List.filter_app, length_app. Qed.

Lemma count_of_cons (p : Event -> bool) (e : Event) (l : list Event) :
  count_of p (e :: l) = ((if p e then 1 else 0) + count_of p l)%nat.
Proof. unfold count_of. simpl. by destruct (p e). Qed.

Lemma lookups_nil_lookup_failed tr :
  lookups tr = [] -> count_of lookup_failed tr = 0%nat.
Proof.
  induction tr as [|e tr IH]; [done|].
  unfold lookups in *. destruct e; simpl; try done; intros Hl; by apply IH.
Qed.

(** One turn of the loop, event by event: the lookup, then what
    [processAlert] does if the alert gets that far, then at most a log
    line. *)
Lemma handleAlert_run alert (w : W) :
  let name := label alert AMLabelTemplateName in
  exists res w1 t,
    client_GetTemplate OCMAgentNamespaceName name w = (res, w1)
    /\ trace (handleAlert alert) w = EvGetTemplate OCMAgentNamespaceName name res :: t
    /\ match res with
       | inl err =>
           result (handleAlert alert) w = Some (not_found_response name err)
           /\ t = [EvLog Error "unable to locate corresponding notification template"]
       | inr mfn =>
           result (handleAlert alert) w = None
           /\ exists logs,
                count_of is_call logs = 0%nat
                /\ (forall p, (forall l m, p (EvLog l m) = false) -> count_of p logs = 0%nat)
                /\ t = ((if isValidAlert alert true
                         then trace (processAlert alert mfn) w1 else []) ++ logs)%list
       end.
Proof.
  intros name. unfold trace, result, handleAlert. fold name. unfold_M.
  destruct (client_GetTemplate OCMAgentNamespaceName name w) as [[err|mfn] w1] eqn:Hget.
  - exists (inl err), w1. eexists. simpl. by repeat split.
  - exists (inr mfn), w1. simpl. destruct (isValidAlert alert true); simpl.
    + destruct (processAlert alert mfn w1) as [[err w2] t2]. simpl.
      destruct err; simpl; rewrite ?app_nil_r;
        (eexists; split; [done|]; split; [done|]; split; [done|]).
      * exists [EvLog Error "a firing alert could not be successfully processed"].
        split; [done|]. split; [|done]. intros p Hp. unfold count_of. simpl. by rewrite Hp.
      * exists []. rewrite app_nil_r. by repeat split.
    + eexists. split; [done|]. split; [done|]. split; [done|].
      exists [EvLog Info "alert does not meet valid criteria"].
      split; [done|]. split; [|done]. intros p Hp. unfold count_of. simpl. by rewrite Hp.
Qed.

(** A property of traces that holds for the traces of [processAlert], for
    a lookup and for log lines, holds for the trace of the loop. *)
Lemma handleFiring_counts (f g : Event -> bool) alerts (w : W) :
  (forall l m, f (EvLog l m) = false) -> (forall l m, g (EvLog l m) = false) ->
  (forall ns n r, f (EvGetTemplate ns n r) = g (EvGetTemplate ns n r)) ->
  (forall alert mfn w, count_of f (trace (processAlert alert mfn) w)
                       = count_of g (trace (processAlert alert mfn) w)) ->
  count_of f (trace (handleFiring alerts) w) = count_of g (trace (handleFiring alerts) w).
Proof.
  intros Hf Hg Hfg Hp. revert w; induction alerts as [|alert rest IH]; intros w; [done|].
  unfold trace in *. rewrite handleFiring_cons_eq.
  destruct (handleAlert_run alert w) as (res & w1 & t & Hget & Htr & Hres).
  unfold trace, result in Htr, Hres.
  destruct (handleAlert alert w) as [[ret w1'] t1]. simpl in *. subst t1.
  destruct res as [err|mfn].
  - destruct Hres as [-> ->]. simpl. rewrite !count_of_cons, Hfg.
    unfold count_of. simpl. by rewrite Hf, Hg.
  - destruct Hres as [-> (logs & _ & Hlogs & ->)].
    specialize (IH w1'). destruct (handleFiring rest w1') as [[resp w2] t2]. simpl in *.
    rewrite !count_of_cons, !count_of_app, Hfg, (Hlogs f Hf), (Hlogs g Hg), IH.
    destruct (isValidAlert alert true); [by rewrite (Hp alert mfn w1)|done].
Qed.

(** X7. Over a whole batch the metrics follow the OCM client: the sent
    counter is bumped once per send it accepted, the response-failure metric
    is reset as often, and it is set once per send it refused. *)
Theorem processAMReceiver_metrics d (w : W) :
  let tr := trace (processAMReceiver d) w in
  count_of is_count tr = count_of is_sent tr
  /\ count_of is_response_reset tr = count_of is_sent tr
  /\ count_of is_response_failure tr = count_of is_send_failed tr.
Proof.
  intros tr. subst tr. unfold processAMReceiver, trace. unfold_M. simpl. fold handleFiring.
  pose proof (fun f g Hf Hg Hfg Hp =>
                handleFiring_counts f g (Firing (Alerts d)) w Hf Hg Hfg Hp) as Hc.
  unfold trace in Hc.
  destruct (handleFiring (Firing (Alerts d)) w) as [[resp w1] t1]. simpl in *.
  rewrite !count_of_cons. simpl.
  split; [|split]; apply Hc; try done; intros alert mfn w0;
    by destruct (processAlert_counts AMLabelAlertMCID AMLabelAlertHCID alert mfn w0)
      as (_ & _ & _ & ? & ? & ? & _).
Qed.

Lemma handleFiring_lookup_failed alerts (w : W) :
  count_of lookup_failed (trace (handleFiring alerts) w)
  = match resp_Error (result (handleFiring alerts) w) with
    | None => 0%nat
    | Some _ => 1%nat
    end.
Proof.
  revert w; induction alerts as [|alert rest IH]; intros w; [done|].
  unfold trace, result in *. rewrite handleFiring_cons_eq.
  destruct (handleAlert_run alert w) as (res & w1 & t & Hget & Htr & Hres).
  unfold trace, result in Htr, Hres.
  destruct (handleAlert alert w) as [[ret w1'] t1]. simpl in *. subst t1.
  destruct res as [err|mfn].
  - by destruct Hres as [-> ->].
  - destruct Hres as [-> (logs & _ & Hlogs & ->)].
    specialize (IH w1'). destruct (handleFiring rest w1') as [[resp w2] t2]. simpl in *.
    rewrite count_of_cons, !count_of_app, (Hlogs lookup_failed) by done. simpl.
    rewrite IH. destruct (isValidAlert alert true); [|done].
    pose proof (processAlert_firing_send AMLabelAlertMCID AMLabelAlertHCID alert mfn w1)
      as [_ Hlook].
    apply lookups_nil_lookup_failed in Hlook. unfold trace in Hlook. by rewrite Hlook.
Qed.

(** X8. The response of [processAMReceiver] is [ok] exactly when no lookup
    of a template failed, and at most one fails: no failure of
    [processAlert] (fetch, creation, send, write) shows in the response. *)
Theorem processAMReceiver_ok_iff_lookups d (w : W) :
  count_of lookup_failed (trace (processAMReceiver d) w)
  = match resp_Error (result (processAMReceiver d) w) with
    | None => 0%nat
    | Some _ => 1%nat
    end
  /\ (resp_Error (result (processAMReceiver d) w) = None
      <-> result (processAMReceiver d) w = ok_response).
Proof.
  pose proof (handleFiring_lookup_failed (Firing (Alerts d)) w) as Hc.
  pose proof (handleFiring_response AMLabelTemplateName AMLabelAlertMCID AMLabelAlertHCID
                isValidAlert (Firing (Alerts d)) w) as Hresp.
  unfold processAMReceiver, trace, result in *. unfold_M. simpl. fold handleFiring.
  destruct (handleFiring (Firing (Alerts d)) w) as [[resp w1] t1]. simpl in *.
  rewrite count_of_cons. simpl. rewrite Hc. split; [done|].
  destruct Hresp as [->|(name & err & ->)]; simpl; split; done.
Qed.

Lemma handleFiring_fetches alerts (w : W) :
  (count_of is_get_record (trace (handleFiring alerts) w)
   <= length (List.filter (fun a => isValidAlert a true) alerts))%nat
  /\ (resp_Error (result (handleFiring alerts) w) = None ->
      count_of is_get_record (trace (handleFiring alerts) w)
      = length (List.filter (fun a => isValidAlert a true) alerts)).
Proof.
  revert w; induction alerts as [|alert rest IH]; intros w; [done|].
  unfold trace, result in *. rewrite handleFiring_cons_eq.
  destruct (handleAlert_run alert w) as (res & w1 & t & Hget & Htr & Hres).
  unfold trace, result in Htr, Hres.
  destruct (handleAlert alert w) as [[ret w1'] t1]. simpl in *. subst t1.
  destruct res as [err|mfn].
  - destruct Hres as [-> ->]. simpl. split; [|done].
    unfold count_of. simpl. lia.
  - destruct Hres as [-> (logs & _ & Hlogs & ->)].
    specialize (IH w1'). destruct (handleFiring rest w1') as [[resp w2] t2]. simpl in *.
    rewrite count_of_cons, !count_of_app, (Hlogs is_get_record) by done. simpl.
    destruct IH as [IHle IHeq].
    destruct (isValidAlert alert true); simpl.
    + destruct (processAlert_counts AMLabelAlertMCID AMLabelAlertHCID alert mfn w1)
        as (Hone & _).
      unfold trace in Hone. rewrite Hone.
      split; [lia|]. intros Hok. rewrite (IHeq Hok). lia.
    + split; [lia|]. intros Hok. rewrite (IHeq Hok). lia.
Qed.

(** X9. [processAMReceiver] fetches a notification record at most once per
    firing alert that passes the filter, and exactly once per such alert
    when the response is [ok]; resolved alerts and alerts the filter rejects
    cause no fetch. *)
Theorem processAMReceiver_fetches d (w : W) :
  let valid := List.filter (fun a => isValidAlert a true) (Firing (Alerts d)) in
  (count_of is_get_record (trace (processAMReceiver d) w) <= length valid)%nat
  /\ (result (processAMReceiver d) w = ok_response ->
      count_of is_get_record (trace (processAMReceiver d) w) = length valid).
Proof.
  intros valid. subst valid.
  pose proof (handleFiring_fetches (Firing (Alerts d)) w) as [Hle Heq].
  unfold processAMReceiver, trace, result in *. unfold_M. simpl. fold handleFiring.
  destruct (handleFiring (Firing (Alerts d)) w) as [[resp w1] t1]. simpl in *.
  rewrite count_of_cons. simpl. split; [done|]. intros ->. by apply Heq.
Qed.

(** X10. One delivery of a batch does what two deliveries of its two halves
    do, one after the other, up to the opening log line of the second, as
    long as the first half is answered [ok]; if it is not, the second half
    is not looked at. *)
Theorem processAMReceiver_split d d1 d2 (w : W) :
  Alerts d = (Alerts d1 ++ Alerts d2)%list ->
  processAMReceiver d w =
  (let '(r1, w1, t1) := processAMReceiver d1 w in
   match resp_Error r1 with
   | None => let '(r2, w2, t2) := processAMReceiver d2 w1 in (r2, w2, (t1 ++ tail t2)%list)
   | Some _ => (r1, w1, t1)
   end).
Proof.
  intros Hd.
  unfold processAMReceiver. unfold_M. simpl. fold handleFiring.
  rewrite Hd. unfold Firing. rewrite filter_app. fold (Firing (Alerts d1)) (Firing (Alerts d2)).
  rewrite (handleFiring_app AMLabelTemplateName AMLabelAlertMCID AMLabelAlertHCID
             isValidAlert).
  destruct (handleFiring (Firing (Alerts d1)) w) as [[r1 w1] t1]. simpl.
  destruct (resp_Error r1); [done|].
  by destruct (handleFiring (Firing (Alerts d2)) w1) as [[r2 w2] t2].
Qed.

End MoreBatch.

(** ** More on the HTTP entry point *)

Section MoreHttp.

Context {W : Type} `{!Client W, !OCMClient W, !Clock W}.
Variables AMLabelTemplateName AMLabelAlertMCID AMLabelAlertHCID : string.
Variable WebhookReceiverPath : string.
Variable isValidAlert : Alert -> bool -> bool.
Variable json_Decode : string -> error + Data.
Variable json_Encode : AMReceiverResponse -> error + string.

Local Abbreviation processAMReceiver :=
  (processAMReceiver AMLabelTemplateName AMLabelAlertMCID AMLabelAlertHCID isValidAlert).
Local Abbreviation ServeHTTP :=
  (ServeHTTP AMLabelTemplateName AMLabelAlertMCID AMLabelAlertHCID WebhookReceiverPath
     isValidAlert json_Decode json_Encode).

(** X11. A POST that decodes: [ServeHTTP] does what [processAMReceiver]
    does and then touches the request metric, resetting it when the response
    was encoded and setting it when it was not.  In the second case the
    status code is already on the wire: the client gets the code of the
    response with the JSON content type, not 500, and the plain text
    [Failed to write to response] as the body. *)
Theorem ServeHTTP_after_processing r d (w : W) :
  Method r = MethodPost ->
  json_Decode (Body r) = inr d ->
  let run := ServeHTTP newResponseWriter (Some r) in
  let resp := result (processAMReceiver d) w in
  world run w = world (processAMReceiver d) w
  /\ match json_Encode resp with
     | inr text =>
         trace run w
         = (trace (processAMReceiver d) w ++ [EvResetMetric MetricRequestFailure])%list
     | inl err =>
         trace run w
         = (trace (processAMReceiver d) w
            ++ [EvLog Error "Failed to write to response";
                EvSetRequestMetricFailure WebhookReceiverPath])%list
         /\ exists rw,
              result run w = Returned rw
              /\ rw_Code rw = Some (resp_Code resp)
              /\ ContentType rw = Some "application/json"
              /\ rw_Body rw = "Failed to write to response" ++ newline
     end.
Proof.
  intros Hm Hdec run resp. subst run resp. unfold ServeHTTP.
  rewrite bool_decide_eq_false_2 by (by intros ?). rewrite Hdec.
  unfold result, world, trace. unfold_M.
  destruct (processAMReceiver d w) as [[resp w1] t1]. simpl.
  destruct (json_Encode resp) as [err|text]; simpl.
  - split; [done|]. split; [done|]. eexists. by repeat split.
  - by split.
Qed.

End MoreHttp.

(** ** The statements at work on the store in memory *)

Module examples.

Import fake.

(** Inside the window nothing is sent; at its end the send goes out. *)
Lemma processAlert_resend_window_witness :
  processAlert_mem' firing inside
  = ((None, Some (record 1 (Some 0%Z))), inside,
     [EvGetRecord OCMAgentNamespaceName "mc" (inr (record 1 (Some 0%Z)));
      EvLog Info "not sending a notification as one was already sent recently"])
  /\ exists res,
       In (EvSendServiceLog "summary" "active" EmptyString "hc" "Info" "test-type" [] true res)
          (trace (processAlert' firing) due).
Proof.
  split.
  - refine (proj1 (proj1 (processAlert_resend_window AMLabelAlertMCID AMLabelAlertHCID
              firing notification inside inside (record 1 (Some 0%Z)) 0%nat entry item 0%Z
              _ _ _ _ _ _) _)); evaluate.
  - refine (proj2 (processAlert_resend_window AMLabelAlertMCID AMLabelAlertHCID
              firing notification due due (record 1 (Some 0%Z)) 0%nat entry item 0%Z
              _ _ _ _ _ _) _); evaluate.
Defined.

(** The OCM client fails: its error comes back and nothing is written. *)
Lemma processAlert_send_error_witness :
  In (EvSendServiceLog "summary" "active" EmptyString "hc" "Info" "test-type" [] true
        (Some a_fake_error))
     (trace (processAlert' firing) (failing_send due))
  /\ result (processAlert' firing) (failing_send due) = Some a_fake_error
  /\ count_of is_write (trace (processAlert' firing) (failing_send due)) = 0%nat.
Proof.
  assert (Hin : In (EvSendServiceLog "summary" "active" EmptyString "hc" "Info" "test-type" [] true
                      (Some a_fake_error))
                   (trace (processAlert' firing) (failing_send due))) by evaluate.
  split; [exact Hin|].
  destruct (processAlert_send_error AMLabelTemplateName AMLabelAlertMCID AMLabelAlertHCID
              isValidAlert firing notification (failing_send due)
              _ _ _ _ _ _ _ _ _ Hin) as (Hres & Hw & _).
  by split.
Defined.

(** The send goes out and the write of the status fails. *)
Lemma processAlert_persist_error_witness :
  existsb is_sent (trace (processAlert' firing) (failing_update a_fake_error due)) = true
  /\ In (EvStatusUpdate (record 2 (Some Hour)) (Some a_fake_error))
        (trace (processAlert' firing) (failing_update a_fake_error due))
  /\ result (processAlert' firing) (failing_update a_fake_error due) = Some a_fake_error
  /\ count_of is_send (trace (processAlert' firing) (failing_update a_fake_error due))
     = 1%nat.
Proof.
  assert (Hsent : existsb is_sent
                    (trace (processAlert' firing) (failing_update a_fake_error due))
                  = true) by evaluate.
  assert (Hin : In (EvStatusUpdate (record 2 (Some Hour)) (Some a_fake_error))
                   (trace (processAlert' firing) (failing_update a_fake_error due)))
    by evaluate.
  split; [exact Hsent|]. split; [exact Hin|].
  exact (processAlert_persist_error AMLabelAlertMCID AMLabelAlertHCID firing notification
           (failing_update a_fake_error due) _ _ Hsent Hin).
Defined.



(** A conflict on the write of the status ends the execution. *)
Lemma processAlert_status_error_is_final_witness :
  trace (processAlert' firing) (failing_update conflict due)
  = (take 5 (trace (processAlert' firing) (failing_update conflict due))
     ++ EvStatusUpdate (record 2 (Some Hour)) (Some conflict)
     :: drop 6 (trace (processAlert' firing) (failing_update conflict due)))%list
  /\ result (processAlert' firing) (failing_update conflict due) = Some conflict.
Proof.
  assert (Htr : trace (processAlert' firing) (failing_update conflict due)
                = (take 5 (trace (processAlert' firing) (failing_update conflict due))
                   ++ EvStatusUpdate (record 2 (Some Hour)) (Some conflict)
                   :: drop 6 (trace (processAlert' firing) (failing_update conflict due)))%list)
    by evaluate.
  split; [exact Htr|].
  exact (proj1 (processAlert_status_error_is_final AMLabelAlertMCID AMLabelAlertHCID
                  firing notification (failing_update conflict due) _ _ _ _ Htr)).
Defined.

(** C8 as the specification states it: after a conflict the record would be fetched
    again.  It is not. *)
Lemma processAlert_conflict_counterexample :
  ~ (forall pre obj e post,
        trace (processAlert' firing) (failing_update conflict due)
        = (pre ++ EvStatusUpdate obj (Some e) :: post)%list ->
        IsConflict e = true ->
        existsb is_get_record post = true
        \/ existsb is_status_update post = true).
Proof.
  intros Hretry.
  destruct (Hretry (take 5 (trace (processAlert' firing) (failing_update conflict due)))
              (record 2 (Some Hour)) conflict
              (drop 6 (trace (processAlert' firing) (failing_update conflict due))))
    as [H|H]; [evaluate|evaluate|vm_compute in H; discriminate|vm_compute in H; discriminate].
Qed.

(** No record: it is created, with its status; the next alert finds it. *)
Lemma processAlert_creates_or_reuses_witness :
  (exists rest,
      trace (processAlert' firing) empty
      = EvGetRecord OCMAgentNamespaceName "mc" (inl (not_found "mc"))
        :: EvCreate {| ObjectMeta_Name := "mc";
                       ObjectMeta_Namespace := OCMAgentNamespaceName;
                       mfnr_Status := {| ManagementCluster := "mc"; Status_RecordByName := [] |} |}
             None
        :: rest)
  /\ (exists rest,
        trace (processAlert' firing) (world (processAlert' firing) empty)
        = EvGetRecord OCMAgentNamespaceName "mc"
            (inr {| ObjectMeta_Name := "mc";
                    ObjectMeta_Namespace := OCMAgentNamespaceName;
                    mfnr_Status := {| ManagementCluster := "mc"; Status_RecordByName := [] |} |})
          :: rest
        /\ count_of is_create rest = 0%nat).
Proof.
  split.
  - destruct (proj1 (processAlert_creates_or_reuses AMLabelAlertMCID AMLabelAlertHCID
                       firing notification empty) (not_found "mc") empty
                ltac:(evaluate) ltac:(evaluate)) as (rest & Htr & _).
    exists rest. exact Htr.
  - destruct (proj2 (processAlert_creates_or_reuses AMLabelAlertMCID AMLabelAlertHCID
                       firing notification (world (processAlert' firing) empty))
                {| ObjectMeta_Name := "mc";
                   ObjectMeta_Namespace := OCMAgentNamespaceName;
                   mfnr_Status := {| ManagementCluster := "mc"; Status_RecordByName := [] |} |}
                (world (processAlert' firing) empty)
                ltac:(evaluate)) as (rest & Htr & Hcreate & _).
    exists rest. split; [exact Htr|exact Hcreate].
Defined.

(** C2 as the specification states it: the response would be 200 and the alert after
    the one without template would be looked at.  Neither holds. *)
Lemma processAMReceiver_template_not_found_counterexample :
  (client_GetTemplate OCMAgentNamespaceName (label missing AMLabelTemplateName) due).1
  = inl (not_found "missing")
  /\ ~ (resp_Code (result (processAMReceiver' [missing; firing]) due) = StatusOK
        /\ resp_Status (result (processAMReceiver' [missing; firing]) due) = "ok")
  /\ ~ In "test-notification" (lookups (trace (processAMReceiver' [missing; firing]) due)).
Proof.
  split; [evaluate|]. split.
  - intros [Hcode _]. vm_compute in Hcode. discriminate.
  - intros Hin. vm_compute in Hin. destruct Hin as [Hin|[]]. discriminate.
Qed.

(** The alert before went through, the template of the second is missing:
    the third is not looked at. *)
Lemma processAMReceiver_template_not_found_witness :
  Firing (Alerts (batch [firing; missing; firing])) = ([firing] ++ missing :: [firing])%list
  /\ resp_Code (result (processAMReceiver' [firing; missing; firing]) inside)
     = StatusInternalServerError
  /\ lookups (trace (processAMReceiver' [firing; missing; firing]) inside)
     = ["test-notification"; "missing"].
Proof.
  assert (Hfiring : Firing (Alerts (batch [firing; missing; firing]))
                    = ([firing] ++ missing :: [firing])%list) by evaluate.
  split; [exact Hfiring|].
  pose proof (processAMReceiver_template_not_found AMLabelTemplateName AMLabelAlertMCID
                AMLabelAlertHCID isValidAlert (batch [firing; missing; firing])
                [firing] missing [firing] inside inside (not_found "missing")
                Hfiring ltac:(evaluate) ltac:(evaluate)) as Hrun.
  unfold processAMReceiver', result, trace. rewrite Hrun. split; evaluate.
Defined.

(** C3 as the specification states it: a resolved alert the resend policy allows
    would lead to a send.  The batch below has one, never notified, and
    nothing at all is done for it. *)
Lemma processAMReceiver_resolved_counterexample :
  CanBeSent (record 0 None) "mc" "test-notification" "hc" 0%Z = inr true
  /\ ~ (exists s a r t sev lt refs res,
          In (EvSendServiceLog s a r t sev lt refs false res)
             (trace (processAMReceiver' [resolved]) (world0 [record 0 None] 0%Z)))
  /\ trace (processAMReceiver' [resolved]) (world0 [record 0 None] 0%Z)
     = [EvLog Info "Process alert data"].
Proof.
  split; [evaluate|]. split; [|evaluate].
  intros (s & a & r & t & sev & lt & refs & res & Hin).
  vm_compute in Hin. destruct Hin as [Hin|[]]. discriminate.
Qed.

(** A resolved alert and a firing one: one lookup, for the firing one. *)
Lemma processAMReceiver_firing_only_witness :
  resp_Error (result (processAMReceiver' [resolved; firing]) inside) = None
  /\ lookups (trace (processAMReceiver' [resolved; firing]) inside)
     = (fun a => label a AMLabelTemplateName) <$> [firing].
Proof.
  assert (Hok : resp_Error (result (processAMReceiver' [resolved; firing]) inside) = None)
    by evaluate.
  split; [exact Hok|].
  exact (proj1 (proj2 (processAMReceiver_firing_only AMLabelTemplateName AMLabelAlertMCID
                         AMLabelAlertHCID isValidAlert (batch [resolved; firing]) inside))
           Hok).
Defined.

(** A GET, a POST that does not decode, a POST that does. *)
Lemma ServeHTTP_responses_witness :
  (exists rw, ServeHTTP' get inside = (Returned rw, inside, [])
              /\ rw_Code rw = Some StatusMethodNotAllowed)
  /\ (exists rw, result (ServeHTTP' (post EmptyString)) inside = Returned rw
                 /\ rw_Code rw = Some StatusBadRequest
                 /\ rw_Body rw = "Bad request body" ++ newline)
  /\ (exists rw, result (ServeHTTP' (post "{}")) inside = Returned rw
                 /\ rw_Code rw = Some StatusOK
                 /\ ContentType rw = Some "application/json").
Proof.
  split; [|split].
  - destruct (proj1 (ServeHTTP_responses AMLabelTemplateName AMLabelAlertMCID
                       AMLabelAlertHCID WebhookReceiverPath isValidAlert json_Decode
                       json_Encode get inside) ltac:(evaluate))
      as (rw & Hrun & Hcode & _).
    exists rw. split; [exact Hrun|exact Hcode].
  - destruct (proj1 (proj2 (ServeHTTP_responses AMLabelTemplateName AMLabelAlertMCID
                              AMLabelAlertHCID WebhookReceiverPath isValidAlert
                              json_Decode json_Encode (post EmptyString) inside))
                (Errorf "json: cannot unmarshal") ltac:(evaluate) ltac:(evaluate))
      as (rw & Hrun & Hcode & _ & Hbody).
    exists rw. unfold result, ServeHTTP'. rewrite Hrun.
    split; [reflexivity|]. split; [exact Hcode|exact Hbody].
  - destruct (proj2 (proj2 (ServeHTTP_responses AMLabelTemplateName AMLabelAlertMCID
                              AMLabelAlertHCID WebhookReceiverPath isValidAlert
                              json_Decode json_Encode (post "{}") inside))
                {| Receiver := EmptyString; DataStatus := EmptyString; Alerts := [] |} "status=ok"
                ltac:(evaluate) ltac:(evaluate) ltac:(evaluate))
      as (rw & Hrun & _ & _ & Htype & _ & Hok).
    exists rw. split; [exact Hrun|]. split; [|exact Htype].
    exact (proj2 (Hok ltac:(evaluate))).
Defined.

(** A hosted cluster without item under a known template: the item is added
    to the record, the notification goes out, the record is written. *)
Lemma processAlert_sends_and_records_witness :
  sendable (record 1 (Some 0%Z)) "mc" "test-notification" "hc2" (Hour - 1)%Z = true
  /\ exists m',
       List.filter is_call (trace (processAlert' newcomer) inside)
       = [EvGetRecord OCMAgentNamespaceName "mc" (inr (record 1 (Some 0%Z)));
          EvSendServiceLog "summary" "active" EmptyString "hc2" "Info" "test-type" [] true None;
          EvStatusUpdate m' (client_StatusUpdate m' inside).1]
       /\ sentCount m' "test-notification" "hc2" = 1%Z
       /\ lastSent m' "test-notification" "hc2" = Some (Hour - 1)%Z.
Proof.
  split; [evaluate|].
  destruct (processAlert_sends_and_records AMLabelAlertMCID AMLabelAlertHCID newcomer
              notification inside inside inside (record 1 (Some 0%Z))
              ltac:(evaluate) ltac:(evaluate) ltac:(evaluate))
    as (m' & Hcalls & _ & _ & Hcount & Hlast & _).
  exists m'. split; [exact Hcalls|]. split; [exact Hcount|exact Hlast].
Defined.

(** Sent at [Hour]: silent until [2 * Hour]. *)
Lemma processAlert_no_resend_within_window_witness :
  sendable (record 1 (Some 0%Z)) "mc" "test-notification" "hc" Hour = true
  /\ exists m' wait,
       In (EvStatusUpdate m' (client_StatusUpdate m' due).1) (trace (processAlert' firing) due)
       /\ entry_wait (record 1 (Some 0%Z)) "test-notification" = Some wait
       /\ forall w' w1',
            client_GetRecord OCMAgentNamespaceName "mc" w' = (inr m', w1') ->
            count_of is_send (trace (processAlert' firing) w')
            = if bool_decide (resendWaitDuration wait <= time_Now w1' - Hour)%Z
              then 1%nat else 0%nat.
Proof.
  split; [evaluate|].
  exact (processAlert_no_resend_within_window AMLabelAlertMCID AMLabelAlertHCID firing
           notification due due due (record 1 (Some 0%Z))
           ltac:(evaluate) ltac:(evaluate) ltac:(evaluate)).
Defined.

(** A record with status and without entries: an error, and nothing else. *)
Lemma processAlert_missing_entry_witness :
  GetNotificationRecordByName no_entry "mc" "test-notification"
  = inl (Errorf "notification record not found: test-notification")
  /\ exists e',
       processAlert' firing (world0 [no_entry] 0%Z)
       = (Some e', world0 [no_entry] 0%Z,
          [EvGetRecord OCMAgentNamespaceName "mc" (inr no_entry);
           EvLog Error "unable to fetch NotificationrecordByName or NotificationRecordItem"]).
Proof.
  split; [evaluate|].
  exact (processAlert_missing_entry AMLabelAlertMCID AMLabelAlertHCID firing notification
           (world0 [no_entry] 0%Z) (world0 [no_entry] 0%Z) no_entry
           (Errorf "notification record not found: test-notification")
           ltac:(evaluate) ltac:(evaluate) ltac:(evaluate)).
Defined.

(** The entry of the record written at [Hour] was in the record fetched. *)
Lemma processAlert_writes_keep_entries_witness :
  In (EvStatusUpdate (record 2 (Some Hour)) None) (trace (processAlert' firing) due)
  /\ entry_wait (record 2 (Some Hour)) "test-notification" = Some 1%Z
  /\ exists m w1,
       client_GetRecord OCMAgentNamespaceName (label firing AMLabelAlertMCID) due = (inr m, w1)
       /\ entry_wait m "test-notification" = Some 1%Z.
Proof.
  assert (Hin : In (EvStatusUpdate (record 2 (Some Hour)) None)
                   (trace (processAlert' firing) due)) by evaluate.
  assert (Hwait : entry_wait (record 2 (Some Hour)) "test-notification" = Some 1%Z)
    by evaluate.
  split; [exact Hin|]. split; [exact Hwait|].
  exact (processAlert_writes_keep_entries AMLabelAlertMCID AMLabelAlertHCID firing
           notification due (record 2 (Some Hour)) None "test-notification" 1%Z
           (or_intror Hin) Hwait).
Defined.

(** Nil inside the window, from a record that has the entry. *)
Lemma processAlert_nil_needs_entry_witness :
  result (processAlert' firing) inside = None
  /\ exists m w1 wait,
       client_GetRecord OCMAgentNamespaceName (label firing AMLabelAlertMCID) inside
       = (inr m, w1)
       /\ ManagementCluster (mfnr_Status m) = label firing AMLabelAlertMCID
       /\ label firing AMLabelAlertMCID <> EmptyString
       /\ entry_wait m "test-notification" = Some wait.
Proof.
  assert (Hnil : result (processAlert' firing) inside = None) by evaluate.
  split; [exact Hnil|].
  exact (processAlert_nil_needs_entry AMLabelAlertMCID AMLabelAlertHCID firing
           notification inside Hnil).
Defined.

(** The store is down. *)
Lemma processAlert_fetch_error_witness :
  IsNotFound outage.unavailable = false
  /\ processAlert AMLabelAlertMCID AMLabelAlertHCID firing notification outage.Down
     = (Some (Errorf "unable to fetch managedFleetNotificationRecord for mc"),
        outage.Down,
        [EvGetRecord OCMAgentNamespaceName "mc" (inl outage.unavailable);
         EvLog Error "unable to fetch managedFleetNotificationRecord"]).
Proof.
  split; [evaluate|].
  exact (processAlert_fetch_error AMLabelAlertMCID AMLabelAlertHCID firing notification
           outage.Down outage.Down outage.unavailable ltac:(evaluate) ltac:(evaluate)).
Defined.

(** A batch of a firing and a resolved alert, in one delivery and in two. *)
Lemma processAMReceiver_split_witness :
  Alerts (batch [firing; resolved]) = (Alerts (batch [firing]) ++ Alerts (batch [resolved]))%list
  /\ trace (processAMReceiver' [firing; resolved]) inside
     = (trace (processAMReceiver' [firing]) inside
        ++ tail (trace (processAMReceiver' [resolved]) inside))%list.
Proof.
  split; [evaluate|].
  pose proof (processAMReceiver_split AMLabelTemplateName AMLabelAlertMCID AMLabelAlertHCID
                isValidAlert (batch [firing; resolved]) (batch [firing]) (batch [resolved])
                inside ltac:(evaluate)) as Hrun.
  unfold processAMReceiver', trace. rewrite Hrun. evaluate.
Defined.

(** The response cannot be encoded: 200 is on the wire all the same. *)
Lemma ServeHTTP_after_processing_witness :
  Method (post "{}") = MethodPost
  /\ json_Decode (Body (post "{}")) = inr {| Receiver := EmptyString;
                                             DataStatus := EmptyString; Alerts := [] |}
  /\ exists rw,
       result (ServeHTTP_unencoded (post "{}")) inside = Returned rw
       /\ rw_Code rw = Some StatusOK
       /\ rw_Body rw = "Failed to write to response" ++ newline.
Proof.
  split; [evaluate|]. split; [evaluate|].
  destruct (ServeHTTP_after_processing AMLabelTemplateName AMLabelAlertMCID AMLabelAlertHCID
              WebhookReceiverPath isValidAlert json_Decode json_Encode_failing
              (post "{}") {| Receiver := EmptyString; DataStatus := EmptyString;
                             Alerts := [] |}
              inside ltac:(evaluate) ltac:(evaluate))
    as (_ & _ & rw & Hres & Hcode & _ & Hbody).
  exists rw. split; [exact Hres|]. split; [exact Hcode|exact Hbody].
Defined.

End examples.
